(** * civic-ai-engine: intent routing, complaint analysis and the WhatsApp
    dialogue state machine of [main.py]

    A shallow embedding of [detect_intent], [analyze_complaint_web] and
    [whatsapp_bot], followed by the properties the design document states
    about them.

    Conventions of the embedding.
    - A Python [str] is a Rocq [string], one [ascii] per character; the
      text primitives below ([lower], [split], [strip], ...) are those of
      Python on the ASCII range.
    - A Python [dict] with string keys is a [gmap string value]; the
      [scores] dictionary of [detect_intent], whose iteration order decides
      [max], is an association list in insertion order.
    - The module-level dictionary [whatsapp_conversations], the standard
      output and the calls made to the two trained classifiers form the
      state threaded through every function; [M] is the monad of that
      state and of the exceptions a dictionary access may raise.
    - The classifiers are opaque capabilities: Section variables.
    - The files matched by [glob.glob("intents/*.txt")] and the number
      drawn by [random.randint] are inputs of the functions that read them. *)

From Stdlib Require Import ZArith Ascii String DecimalString.
From stdpp Require Import base gmap sets list strings.

Local Open Scope Z_scope.

(** ** Python text primitives *)

Module Py.

(** [c.isspace()] for an ASCII character of a [str]: TAB, LF, VT, FF, CR,
    the four separators FS, GS, RS, US and the space. *)
Definition isspace (c : ascii) : bool :=
  let n := nat_of_ascii c in
  ((9 <=? n)%nat && (n <=? 13)%nat) || ((28 <=? n)%nat && (n <=? 32)%nat).

Definition isupper (c : ascii) : bool :=
  let n := nat_of_ascii c in (65 <=? n)%nat && (n <=? 90)%nat.

Definition lower_char (c : ascii) : ascii :=
  if isupper c then ascii_of_nat (nat_of_ascii c + 32) else c.

(** [s.lower()] *)
Fixpoint lower (s : string) : string :=
  match s with
  | EmptyString => EmptyString
  | String c s' => String (lower_char c) (lower s')
  end.

(** [s.split()]: maximal runs of non-whitespace characters.  [cur] is the
    token being read, reversed, or [None] between tokens. *)
Fixpoint split_go (cur : option string) (s : string) : list string :=
  match s with
  | EmptyString => option_list (String.rev <$> cur)
  | String c s' =>
      if isspace c
      then option_list (String.rev <$> cur) ++ split_go None s'
      else split_go (Some (String c (default EmptyString cur))) s'
  end.

Definition split (s : string) : list string := split_go None s.

(** [s.lstrip()], [s.rstrip()], [s.strip()] *)
Fixpoint lstrip (s : string) : string :=
  match s with
  | EmptyString => EmptyString
  | String c s' => if isspace c then lstrip s' else s
  end.

Definition rstrip (s : string) : string := String.rev (lstrip (String.rev s)).

Definition strip (s : string) : string := rstrip (lstrip s).

(** [s.split(sep)] for a one-character separator: never empty. *)
Fixpoint split_on (sep : ascii) (s : string) : list string :=
  match s with
  | EmptyString => [EmptyString]
  | String c s' =>
      if decide (c = sep) then EmptyString :: split_on sep s'
      else match split_on sep s' with
           | t :: ts => String c t :: ts
           | [] => [String c EmptyString]
           end
  end.

(** [s.split(sep)[-1]] *)
Definition last_field (sep : ascii) (s : string) : string :=
  default EmptyString (last (split_on sep s)).

(** [os.path.basename(p)] on a POSIX path *)
Definition basename (p : string) : string := last_field "/" p.

(** [s.startswith(p)] *)
Fixpoint startswith (p s : string) : bool :=
  match p, s with
  | EmptyString, _ => true
  | String a p', String b s' => bool_decide (a = b) && startswith p' s'
  | String _ _, EmptyString => false
  end.

(** [sub in s] *)
Fixpoint contains (sub s : string) : bool :=
  startswith sub s ||
  match s with
  | EmptyString => false
  | String _ s' => contains sub s'
  end.

(** [s.replace(old, new)] for a non-empty [old]: occurrences are replaced
    from left to right without overlap.  [skip] counts the characters of
    the occurrence just replaced that are still to be dropped. *)
Fixpoint replace_go (old new : string) (skip : nat) (s : string) : string :=
  match s with
  | EmptyString => EmptyString
  | String c s' =>
      match skip with
      | S k => replace_go old new k s'
      | O =>
          if startswith old s
          then new +:+ replace_go old new (String.length old - 1) s'
          else String c (replace_go old new 0 s')
      end
  end.

Definition replace (old new s : string) : string := replace_go old new 0 s.

(** [str(n)] for an [int] *)
Definition str_int (n : Z) : string := NilEmpty.string_of_int (Z.to_int n).

(** [random.randint(a, b)] reading the entropy [r]: any integer of [a..b]. *)
Definition randint (a b r : Z) : Z := a + r mod (b - a + 1).

End Py.

(** ** Data model *)

(** The values stored in the dictionaries of [main.py]. *)
Inductive value :=
  | VStr (s : string)
  | VBool (b : bool)
  | VInt (n : Z).

Global Instance value_eq_dec : EqDecision value.
Proof. solve_decision. Defined.

(** A Python [dict] with [str] keys. *)
Abbreviation dict := (gmap string value).

(** [bool(v)] *)
Definition truthy (v : value) : bool :=
  match v with
  | VStr s => negb (bool_decide (s = EmptyString))
  | VBool b => b
  | VInt n => negb (n =? 0)
  end.

(** [bool(d.get(k))]: a missing key gives [None], which is falsy. *)
Definition truthy_get (d : dict) (k : string) : bool :=
  match d !! k with
  | Some v => truthy v
  | None => false
  end.

(** [bool(d)] for a dictionary *)
Definition dict_truthy (d : dict) : bool := negb (bool_decide (d = ∅)).

(** [str(v)], as an f-string formats a value *)
Definition str (v : value) : string :=
  match v with
  | VStr s => s
  | VBool true => "True"
  | VBool false => "False"
  | VInt n => Py.str_int n
  end.

(** [class ComplaintData(BaseModel)] *)
Record ComplaintData := {
  name : string;
  contact : string;
  category : string;
  title : string;
  description : string;
  location : string
}.

(** [class WhatsAppMessage(BaseModel)] *)
Record WhatsAppMessage := {
  From : string;
  Body : string
}.

(** One file matched by [glob.glob("intents/*.txt")]: its path and its
    lines as [for line in f] yields them. *)
Record IntentFile := {
  path : string;
  lines : list string
}.

(** What the program prints: the line of [detect_intent] and the two
    lines the webhook prints when a complaint is filed. *)
Inductive printed :=
  | PrintDetected (best_intent : string) (score : nat)
  | PrintToBeSaved
  | PrintDetails (session : dict).

(** The two trained models. *)
Inductive capability := Coherence | Category.

(** The state shared by all requests: the module-level dictionary
    [whatsapp_conversations], the standard output, and the record of the
    [predict] calls made so far (the text each model was given). *)
Record State := {
  whatsapp_conversations : gmap string dict;
  stdout : list printed;
  predict_calls : list (capability * string)
}.

Definition initial_state : State :=
  {| whatsapp_conversations := ∅; stdout := []; predict_calls := [] |}.

(** ** The monad of the handlers: state and exceptions *)

(** The exception a missing dictionary key raises. *)
Inductive exception := KeyError (key : string).

(** A call returns a value or raises. *)
Inductive outcome (A : Type) :=
  | Ok (a : A)
  | Raised (e : exception).
Arguments Ok {A} a.
Arguments Raised {A} e.

(** A computation reads and updates the state; what it changed before
    raising stays changed. *)
Definition M (A : Type) : Type := State → outcome A * State.

Global Instance M_ret : MRet M := λ A a st, (Ok a, st).

Global Instance M_bind : MBind M := λ A B f m st,
  match m st with
  | (Ok a, st') => f a st'
  | (Raised e, st') => (Raised e, st')
  end.

(** [raise e] *)
Definition raise {A} (e : exception) : M A := λ st, (Raised e, st).

(** [print(...)] *)
Definition print (p : printed) : M unit := λ st,
  (Ok tt, {| whatsapp_conversations := whatsapp_conversations st;
             stdout := stdout st ++ [p];
             predict_calls := predict_calls st |}).

(** [d[k]] *)
Definition getitem (d : dict) (k : string) : M value :=
  match d !! k with
  | Some v => mret v
  | None => raise (KeyError k)
  end.

(** [whatsapp_conversations.get(k)] *)
Definition conversations_get (k : string) : M (option dict) := λ st,
  (Ok (whatsapp_conversations st !! k), st).

(** [whatsapp_conversations[k] = session] *)
Definition conversations_set (k : string) (session : dict) : M unit := λ st,
  (Ok tt, {| whatsapp_conversations := <[k := session]> (whatsapp_conversations st);
             stdout := stdout st;
             predict_calls := predict_calls st |}).

(** [whatsapp_conversations.pop(k, None)] *)
Definition conversations_pop (k : string) : M unit := λ st,
  (Ok tt, {| whatsapp_conversations := delete k (whatsapp_conversations st);
             stdout := stdout st;
             predict_calls := predict_calls st |}).

(** ** Intent detection, [detect_intent] *)

(** [os.path.basename(intent_file)] with every [.txt] in it replaced by
    the empty string *)
Definition intent_name (f : IntentFile) : string :=
  Py.replace ".txt" EmptyString (Py.basename (path f)).

(** [set(line.strip() for line in f if line.strip())] *)
Definition keywords (f : IntentFile) : gset string :=
  list_to_set (filter (λ w, w ≠ EmptyString) (Py.strip <$> lines f)).

(** [set(message.lower().split())] *)
Definition message_words (message : string) : gset string :=
  list_to_set (Py.split (Py.lower message)).

(** [len(message_words.intersection(keywords))] *)
Definition score (words : gset string) (f : IntentFile) : nat :=
  size (words ∩ keywords f).

(** [scores[k] = v] on a dictionary kept in insertion order: a key already
    present keeps its position and takes the new value. *)
Fixpoint scores_set (k : string) (v : nat) (scores : list (string * nat))
  : list (string * nat) :=
  match scores with
  | [] => [(k, v)]
  | (k', v') :: rest =>
      if decide (k = k') then (k, v) :: rest
      else (k', v') :: scores_set k v rest
  end.

(** The loop over the intent files, from the empty [scores]. *)
Definition score_files (words : gset string) (intent_files : list IntentFile)
  : list (string * nat) :=
  foldl (λ scores f,
           if (0 <? score words f)%nat
           then scores_set (intent_name f) (score words f) scores
           else scores)
        [] intent_files.

(** [max(scores, key=lambda x: scores[x])] on a non-empty [scores]: the
    first entry, in iteration order, whose value no later entry exceeds. *)
Definition max_entry (first : string * nat) (rest : list (string * nat))
  : string * nat :=
  foldl (λ best kv, if (best.2 <? kv.2)%nat then kv else best) first rest.

Definition detect_intent (intent_files : list IntentFile) (message : string)
  : M string :=
  match score_files (message_words message) intent_files with
  | [] => mret "unknown"
  | first :: rest =>
      let best := max_entry first rest in
      print (PrintDetected best.1 best.2);;
      mret best.1
  end.

(** ** The handlers *)

Section Engine.

(** [bool(coherence_classifier.predict([text])[0])] and
    [category_classifier.predict([text])[0]]. *)
Variable coherence_predict : string → bool.
Variable category_predict : string → string.

Definition call_coherence (text : string) : M bool := λ st,
  (Ok (coherence_predict text),
   {| whatsapp_conversations := whatsapp_conversations st;
      stdout := stdout st;
      predict_calls := predict_calls st ++ [(Coherence, text)] |}).

Definition call_category (text : string) : M string := λ st,
  (Ok (category_predict text),
   {| whatsapp_conversations := whatsapp_conversations st;
      stdout := stdout st;
      predict_calls := predict_calls st ++ [(Category, text)] |}).

Definition high_priority_keywords : list string :=
  ["urgent"; "dangerous"; "hazard"; "fire"; "leak"; "exposed"; "accident";
   "unsafe"; "sewage"; "overflow"].

(** [complaint.title + " " + complaint.description] *)
Definition complaint_text (title description : string) : string :=
  title +:+ " " +:+ description.

(** [POST /api/ai/analyze] *)
Definition analyze_complaint_web (complaint : ComplaintData) : M dict :=
  let text := complaint_text (title complaint) (description complaint) in
  let text_lower := Py.lower text in
  is_valid ← call_coherence text;
  if negb is_valid
  then mret {[ "isComplaintValid" := VBool false;
               "reasoning" := VStr "Invalid complaint text." ]}
  else
    predicted_category ← call_category text;
    let priority :=
      if existsb (λ keyword, Py.contains keyword text_lower) high_priority_keywords
      then "High" else "Medium" in
    let resolution_days := 5 in
    mret {[ "priority" := VStr priority;
            "isComplaintValid" := VBool true;
            "reasoning" := VStr EmptyString;
            "suggestedCategory" := VStr predicted_category;
            "estimatedResolutionDays" := VInt resolution_days ]}.

(** The two local variables of [whatsapp_bot] that the nested function
    [start_complaint_flow] rebinds through [nonlocal]. *)
Record Locals := {
  session : option dict;
  response_text : string
}.

(** The nested [start_complaint_flow(complaint_desc)]; [user_phone] is the
    variable of the enclosing call. *)
Definition start_complaint_flow (user_phone complaint_desc : string) : M Locals :=
  analysis_result ← analyze_complaint_web
    {| name := "WhatsApp User"; contact := user_phone; category := "unknown";
       title := "WhatsApp Complaint"; description := complaint_desc;
       location := "unknown" |};
  let session0 : dict :=
    {[ "stage" := VStr "get_location"; "description" := VStr complaint_desc ]} in
  session1 ←
    (if dict_truthy analysis_result && truthy_get analysis_result "isComplaintValid"
     then
       suggested ← getitem analysis_result "suggestedCategory";
       priority ← getitem analysis_result "priority";
       mret (<["priority" := priority]> (<["category" := suggested]> session0))
     else
       mret (<["priority" := VStr "medium"]>
               (<["category" := VStr "unknown"]> session0)));
  shown_category ← getitem session1 "category";
  shown_priority ← getitem session1 "priority";
  mret {| session := Some session1;
          response_text :=
            "Got it. I've categorized this as a '" +:+ str shown_category
            +:+ "' issue with '" +:+ str shown_priority
            +:+ "' priority. What is the location of this issue?" |}.

(** How the body of [whatsapp_bot] leaves its [if]: by one of the two
    early [return]s, or by falling through to the final write-back. *)
Inductive exit :=
  | Return (response : string)
  | FallThrough (l : Locals).

(** [session.get("stage") == stage] *)
Definition stage_is (s : dict) (stage : string) : bool :=
  bool_decide (s !! "stage" = Some (VStr stage)).

(** The branch [if not session:] *)
Definition without_session (intent_files : list IntentFile)
    (user_phone user_message : string) : M exit :=
  intent ← detect_intent intent_files user_message;
  if bool_decide (intent = "file_complaint") then
    l ← start_complaint_flow user_phone user_message;
    mret (FallThrough l)
  else if bool_decide (intent = "check_status") then
    mret (FallThrough
      {| session := Some {[ "stage" := VStr "get_status_id" ]};
         response_text := "To check the status of a complaint, please provide your Complaint ID." |})
  else
    mret (FallThrough
      {| session := Some {[ "stage" := VStr "greeting" ]};
         response_text := "Welcome to the Smart Grievance System! How can I help you today? You can say 'file a complaint' or 'check status'." |}).

(** The branch [else:], on the stage of the stored session [s]. *)
Definition with_session (intent_files : list IntentFile) (entropy : Z)
    (user_phone user_message : string) (s : dict) : M exit :=
  if stage_is s "greeting" then
    intent ← detect_intent intent_files user_message;
    if bool_decide (intent = "file_complaint") then
      l ← start_complaint_flow user_phone user_message;
      mret (FallThrough l)
    else if bool_decide (intent = "check_status") then
      mret (FallThrough
        {| session := Some (<["stage" := VStr "get_status_id"]> s);
           response_text := "To check the status of a complaint, please provide your Complaint ID." |})
    else
      mret (FallThrough
        {| session := Some s;
           response_text := "I'm sorry, I didn't understand. You can say 'file a complaint' or 'check status'." |})
  else if stage_is s "get_description" then
    l ← start_complaint_flow user_phone user_message;
    mret (FallThrough l)
  else if stage_is s "get_location" then
    mret (FallThrough
      {| session := Some (<["stage" := VStr "get_password"]>
                            (<["location" := VStr user_message]> s));
         response_text := "Thank you. Finally, please set a simple password to secure this complaint." |})
  else if stage_is s "get_password" then
    let complaint_id := "WACMP-" +:+ Py.str_int (Py.randint 1000 9999 entropy) in
    let s' := <["id" := VStr complaint_id]> (<["password" := VStr user_message]> s) in
    print PrintToBeSaved;;
    print (PrintDetails s');;
    conversations_pop user_phone;;
    mret (Return ("Excellent! Your complaint has been filed. Your Complaint ID is: *"
                  +:+ complaint_id +:+ "*. Please save this ID."))
  else if stage_is s "get_status_id" then
    conversations_pop user_phone;;
    mret (Return ("Checking status for complaint " +:+ user_message
                  +:+ "... (This feature is in development)."))
  else
    mret (FallThrough {| session := Some s; response_text := EmptyString |}).

(** [POST /api/whatsapp/webhook]; the returned string is the value of the
    [response] field. *)
Definition whatsapp_bot (intent_files : list IntentFile) (entropy : Z)
    (message : WhatsAppMessage) : M string :=
  let user_phone := Py.last_field ":" (From message) in
  let user_message := Py.strip (Body message) in
  stored ← conversations_get user_phone;
  out ← match stored with
        | Some s =>
            if dict_truthy s
            then with_session intent_files entropy user_phone user_message s
            else without_session intent_files user_phone user_message
        | None => without_session intent_files user_phone user_message
        end;
  match out with
  | Return response => mret response
  | FallThrough l =>
      match session l with
      | Some s => conversations_set user_phone s
      | None => mret tt
      end;;
      mret (response_text l)
  end.

End Engine.

(** ** Sample inputs *)

(** Two states of the directory of intent files: as the process finds it
    when it starts, and after a keyword was added to one file. *)
Definition files_at_startup : list IntentFile :=
  [ {| path := "intents/file_complaint.txt";
       lines := ["complaint" +:+ String "010" EmptyString;
                 "report" +:+ String "010" EmptyString] |};
    {| path := "intents/check_status.txt";
       lines := ["status" +:+ String "010" EmptyString;
                 "check" +:+ String "010" EmptyString] |} ].

(** The directory after the edit. *)
Definition files_after_edit : list IntentFile :=
  [ {| path := "intents/file_complaint.txt";
       lines := ["complaint" +:+ String "010" EmptyString;
                 "report" +:+ String "010" EmptyString;
                 "pothole" +:+ String "010" EmptyString] |};
    {| path := "intents/check_status.txt";
       lines := ["status" +:+ String "010" EmptyString;
                 "check" +:+ String "010" EmptyString] |} ].

(** Sample models: the validity model accepts the texts that mention a
    pothole, the category model files everything under roads. *)
Definition sample_coherence (text : string) : bool :=
  Py.contains "pothole" (Py.lower text).

(** The sample category model. *)
Definition sample_category (text : string) : string := "roads".

(** A request to the analysis endpoint. *)
Definition sample_complaint (title description : string) : ComplaintData :=
  {| name := "Asha"; contact := "+15550100"; category := "roads";
     title := title; description := description; location := "Main street" |}.

(** A chat message of the sample sender. *)
Definition from_sample (body : string) : WhatsAppMessage :=
  {| From := "whatsapp:+15550100"; Body := body |}.

(** The state after a first complaint message of the sample sender. *)
Definition state_after_description : State :=
  (whatsapp_bot sample_coherence sample_category files_after_edit 7
     (from_sample " report a pothole ") initial_state).2.

(** ** Vocabulary of the statements *)

(** [sub] occurs in [s]: the meaning of Python's [sub in s]. *)
Definition occurs_in (sub s : string) : Prop :=
  ∃ before after, s = before +:+ sub +:+ after.

(** A decimal digit. *)
Definition isdigit (c : ascii) : bool :=
  let n := nat_of_ascii c in (48 <=? n)%nat && (n <=? 57)%nat.

(** Every character of [s] is a decimal digit. *)
Fixpoint all_digits (s : string) : bool :=
  match s with
  | EmptyString => true
  | String c s' => isdigit c && all_digits s'
  end.

(** The regular expression [\d{4}] on a whole string. *)
Definition four_digits (s : string) : bool :=
  bool_decide (String.length s = 4%nat) && all_digits s.

(** The intent [detect_intent] returns, as a function. *)
Definition detected (intent_files : list IntentFile) (message : string) : string :=
  match score_files (message_words message) intent_files with
  | [] => "unknown"
  | first :: rest => (max_entry first rest).1
  end.

(** The priority the keyword scan gives to a text. *)
Definition priority_of (text : string) : string :=
  if existsb (λ keyword, Py.contains keyword (Py.lower text)) high_priority_keywords
  then "High" else "Medium".

(** The state [st] after the models answered [calls]. *)
Definition logged (st : State) (calls : list (capability * string)) : State :=
  {| whatsapp_conversations := whatsapp_conversations st;
     stdout := stdout st;
     predict_calls := predict_calls st ++ calls |}.

(** The session [start_complaint_flow] builds from the category and the
    priority it settled on. *)
Definition flow_session (desc : string) (labels : value * value) : dict :=
  <["priority" := labels.2]>
    (<["category" := labels.1]>
       {[ "stage" := VStr "get_location"; "description" := VStr desc ]}).

(** The reply [start_complaint_flow] builds from them. *)
Definition flow_reply (labels : value * value) : string :=
  "Got it. I've categorized this as a '" +:+ str labels.1
  +:+ "' issue with '" +:+ str labels.2
  +:+ "' priority. What is the location of this issue?".

(** The session [s] is at stage [stage]. *)
Definition has_stage (s : dict) (stage : string) : Prop :=
  s !! "stage" = Some (VStr stage).

(** The session [s] has the field [field]. *)
Definition populated (s : dict) (field : string) : Prop := is_Some (s !! field).

(** The fields of a session other than its stage. *)
Definition complaint_fields : list string :=
  ["description"; "category"; "priority"; "location"; "password"; "id"].

(** What the stage of a session says about its fields. *)
Definition session_fields_ok (s : dict) : Prop :=
  (has_stage s "get_location" →
     populated s "description" ∧ populated s "category" ∧ populated s "priority")
  ∧ (has_stage s "get_password" →
       populated s "description" ∧ populated s "category"
       ∧ populated s "priority" ∧ populated s "location")
  ∧ (has_stage s "greeting" ∨ has_stage s "get_status_id" →
       Forall (λ field, s !! field = None) complaint_fields).

(** Every stored session has the fields of its stage. *)
Definition store_fields_ok (store : gmap string dict) : Prop :=
  map_Forall (λ _ s, session_fields_ok s) store.

(** The four stages the webhook stores. *)
Definition stored_stages : list string :=
  ["greeting"; "get_location"; "get_password"; "get_status_id"].

(** The session [s] is at one of them. *)
Definition known_stage (s : dict) : Prop :=
  ∃ stage, stage ∈ stored_stages ∧ has_stage s stage.

(** The fixed replies of the webhook. *)
Definition welcome_prompt : string :=
  "Welcome to the Smart Grievance System! How can I help you today? You can say 'file a complaint' or 'check status'.".

(** The reply to a message not understood at stage [greeting]. *)
Definition clarifying_prompt : string :=
  "I'm sorry, I didn't understand. You can say 'file a complaint' or 'check status'.".

(** The reply that asks for a password. *)
Definition password_prompt : string :=
  "Thank you. Finally, please set a simple password to secure this complaint.".

(** The reply that confirms a complaint and gives its identifier. *)
Definition filed_reply (complaint_id : string) : string :=
  "Excellent! Your complaint has been filed. Your Complaint ID is: *"
  +:+ complaint_id +:+ "*. Please save this ID.".

(** [detect_intent] classifies [message] as [intent]. *)
Definition classified (intent_files : list IntentFile) (message : string)
    (st : State) (intent : string) : Prop :=
  (detect_intent intent_files message st).1 = Ok intent.

(** The message opens the complaint flow: it is classified as
    [file_complaint] and the sender has no session or one at stage
    [greeting], or the session is at stage [get_description]. *)
Definition enters_complaint_flow (intent_files : list IntentFile)
    (user_message : string) (st : State) (stored : option dict) : Prop :=
  match stored with
  | None => classified intent_files user_message st "file_complaint"
  | Some s =>
      (has_stage s "greeting"
       ∧ classified intent_files user_message st "file_complaint")
      ∨ has_stage s "get_description"
  end.

(** The regular expression [WACMP-\d{4}], matched against a whole string. *)
Definition is_complaint_id (s : string) : Prop :=
  ∃ digits, s = "WACMP-" +:+ digits ∧ four_digits digits = true.

(** The entries the loop of [detect_intent] adds for a list of files with
    pairwise distinct intent names. *)
Definition entries (words : gset string) (files : list IntentFile)
  : list (string * nat) :=
  (λ f, (intent_name f, score words f))
    <$> filter (λ f, (0 < score words f)%nat) files.

(** One turn of the loop of [detect_intent]. *)
Definition scoring_step (words : gset string)
    (scores : list (string * nat)) (f : IntentFile) : list (string * nat) :=
  if (0 <? score words f)%nat
  then scores_set (intent_name f) (score words f) scores
  else scores.

(** Every character of [s] satisfies [P]. *)
Fixpoint all_chars (P : ascii → bool) (s : string) : bool :=
  match s with
  | EmptyString => true
  | String c s' => P c && all_chars P s'
  end.

(** The character [c] occurs in [s]. *)
Fixpoint has_char (c : ascii) (s : string) : bool :=
  match s with
  | EmptyString => false
  | String c' s' => bool_decide (c' = c) || has_char c s'
  end.

(** A character a word of a lower-cased message can hold: no white space,
    no upper-case letter. *)
Definition word_char (c : ascii) : bool :=
  negb (Py.isspace c) && negb (Py.isupper c).

(** The reply that asks for a complaint identifier. *)
Definition status_prompt : string :=
  "To check the status of a complaint, please provide your Complaint ID.".

(** The reply to the identifier of a complaint. *)
Definition status_reply (complaint_id_from_user : string) : string :=
  "Checking status for complaint " +:+ complaint_id_from_user
  +:+ "... (This feature is in development).".

(** The sessions met in the store: the two one-field sessions, the
    session [start_complaint_flow] builds for a description, and that
    session with a location, at stage [get_password].  [labels] gives the
    category and the priority of a description. *)
Definition session_shape (labels : string → value * value) (s : dict) : Prop :=
  s = {[ "stage" := VStr "greeting" ]}
  ∨ s = {[ "stage" := VStr "get_status_id" ]}
  ∨ (∃ desc, s = flow_session desc (labels desc))
  ∨ (∃ desc place,
       s = <["stage" := VStr "get_password"]>
             (<["location" := VStr place]> (flow_session desc (labels desc)))).

(** ** The evaluation script, [train_model.py]

    The rows of [real_complaints.csv] that are left after [dropna] give
    the column of texts [X_real] and the column of true categories
    [y_true]; [y_pred] is what the category model predicts for [X_real].
    [None] stands for the [IndexError] of [X_real.iloc[i]]. *)

Module Evaluation.

(** An entry of [mismatches]. *)
Record Mismatch := {
  text : string;
  true_category : string;
  predicted_category : string
}.

(** The loop over [enumerate(zip(y_true, y_pred))], from the index [i] and
    the mismatches found so far. *)
Fixpoint collect (X_real : list string) (i : nat)
    (pairs : list (string * string)) (mismatches : list Mismatch)
  : option (list Mismatch) :=
  match pairs with
  | [] => Some mismatches
  | (true_label, pred_label) :: rest =>
      if decide (true_label ≠ pred_label) then
        match X_real !! i with
        | Some t =>
            collect X_real (S i) rest
              (mismatches ++ [ {| text := t; true_category := true_label;
                                  predicted_category := pred_label |} ])
        | None => None
        end
      else collect X_real (S i) rest mismatches
  end.

(** [mismatches] after the loop. *)
Definition find_mismatches (X_real y_true y_pred : list string)
  : option (list Mismatch) :=
  collect X_real 0 (zip y_true y_pred) [].

(** What the script prints about the mismatches: that there is none, or
    their number and the first fifteen, numbered from one. *)
Inductive report :=
  | NoMismatch
  | Found (count : nat) (examples : list (nat * Mismatch)).

Definition report_of (mismatches : list Mismatch) : report :=
  match mismatches with
  | [] => NoMismatch
  | _ => Found (length mismatches)
               (imap (λ i m, (S i, m)) (take 15 mismatches))
  end.

End Evaluation.

(** The mismatches among rows given as texts with their true categories. *)
Definition mismatches_of (predict : string → string)
    (rows : list (string * string)) : list Evaluation.Mismatch :=
  omap (λ row : string * string,
          if decide (row.2 ≠ predict row.1)
          then Some {| Evaluation.text := row.1;
                       Evaluation.true_category := row.2;
                       Evaluation.predicted_category := predict row.1 |}
          else None) rows.

(** ** More sample inputs *)

(** The state after the sample sender gave a location. *)
Definition state_after_location : State :=
  (whatsapp_bot sample_coherence sample_category files_at_startup 8
     (from_sample "Main street") state_after_description).2.

(** The session of the sample sender in [state_after_description]. *)
Definition sample_session : dict :=
  flow_session "report a pothole" (VStr "roads", VStr "Medium").

(** A store whose only session is at a stage the webhook does not know. *)
Definition state_with_lost_session : State :=
  {| whatsapp_conversations :=
       {[ "+15550100" := {[ "stage" := VStr "lost" ]} ]};
     stdout := [];
     predict_calls := [] |}.

(** Three keyword files of which two give the same intent name [a]. *)
Definition clashing_files : list IntentFile :=
  [ {| path := "intents/a.txt"; lines := ["x"; "y"; "z"] |};
    {| path := "intents/a.txt.txt"; lines := ["x"] |};
    {| path := "intents/b.txt"; lines := ["x"; "y"] |} ].

(** The state after the sample sender said good morning. *)
Definition state_after_greeting : State :=
  (whatsapp_bot sample_coherence sample_category files_at_startup 0
     (from_sample "Good morning") initial_state).2.

(** A keyword file written with capitals and with a phrase. *)
Definition shouting_file : IntentFile :=
  {| path := "intents/file_complaint.txt";
     lines := ["Complaint" +:+ String "010" EmptyString;
               "file complaint" +:+ String "010" EmptyString] |}.

(** ** Properties of the handlers *)

Section Properties.

Variable coherence_predict : string → bool.
Variable category_predict : string → string.

Abbreviation analyze := (analyze_complaint_web coherence_predict category_predict).
Abbreviation flow := (start_complaint_flow coherence_predict category_predict).
Abbreviation webhook := (whatsapp_bot coherence_predict category_predict).

(** The category and the priority [start_complaint_flow] settles on for a
    description: those of the analysis when the text is valid, the
    fallback values otherwise. *)
Definition flow_labels (desc : string) : value * value :=
  let text := complaint_text "WhatsApp Complaint" desc in
  if coherence_predict text
  then (VStr (category_predict text), VStr (priority_of text))
  else (VStr "unknown", VStr "medium").

(** The model calls that analysis makes. *)
Definition flow_calls (desc : string) : list (capability * string) :=
  let text := complaint_text "WhatsApp Complaint" desc in
  if coherence_predict text
  then [(Coherence, text); (Category, text)]
  else [(Coherence, text)].

(** What one call of the webhook may store for the sender, given what was
    stored before ([stored]) and the stripped message. *)
Inductive written (stored : option dict) (user_message : string) : dict → Prop :=
  | written_flow :
      written stored user_message
        (flow_session user_message (flow_labels user_message))
  | written_status_id :
      written stored user_message {[ "stage" := VStr "get_status_id" ]}
  | written_greeting :
      written stored user_message {[ "stage" := VStr "greeting" ]}
  | written_greeting_to_status s :
      stored = Some s → stage_is s "greeting" = true →
      written stored user_message (<["stage" := VStr "get_status_id"]> s)
  | written_greeting_kept s :
      stored = Some s → stage_is s "greeting" = true →
      written stored user_message s
  | written_location s :
      stored = Some s → stage_is s "get_location" = true →
      written stored user_message
        (<["stage" := VStr "get_password"]> (<["location" := VStr user_message]> s))
  | written_unchanged s :
      stored = Some s →
      stage_is s "greeting" = false → stage_is s "get_description" = false →
      stage_is s "get_location" = false → stage_is s "get_password" = false →
      stage_is s "get_status_id" = false →
      written stored user_message s.

(** The states of the process: it starts with no conversation, and every
    request to either endpoint, with whatever intent files and random
    number it meets, leads from a state to the next. *)
Inductive reachable : State → Prop :=
  | reachable_initial : reachable initial_state
  | reachable_webhook st intent_files entropy message :
      reachable st →
      reachable (webhook intent_files entropy message st).2
  | reachable_analyze st complaint :
      reachable st →
      reachable (analyze complaint st).2.

(** ** The text primitives on examples *)

Example lower_ex : Py.lower "Gas LEAK @ Main-St 42" = "gas leak @ main-st 42".
Proof. reflexivity. Qed.
Example split_ex :
  Py.split (String "009" " file  a" +:+ String "010" "complaint ")
  = ["file"; "a"; "complaint"].
Proof. reflexivity. Qed.
Example strip_ex : Py.strip "  hello world  " = "hello world".
Proof. reflexivity. Qed.
Example last_field_ex : Py.last_field ":" "whatsapp:+14155238886" = "+14155238886".
Proof. reflexivity. Qed.
Example last_field_none : Py.last_field ":" "5551234" = "5551234".
Proof. reflexivity. Qed.
Example basename_ex : Py.basename "intents/file_complaint.txt" = "file_complaint.txt".
Proof. reflexivity. Qed.
Example replace_ex :
  Py.replace ".txt" EmptyString (Py.basename "intents/file_complaint.txt")
  = "file_complaint".
Proof. reflexivity. Qed.
Example replace_twice : Py.replace ".txt" EmptyString "a.txt.txt" = "a".
Proof. reflexivity. Qed.
Example contains_ex : Py.contains "leak" "there is a gas leak near" = true.
Proof. reflexivity. Qed.
Example str_int_ex : Py.str_int 1234 = "1234" ∧ Py.str_int 0 = "0" ∧ Py.str_int (-7) = "-7".
Proof. repeat split; reflexivity. Qed.

(** ** Facts about the text primitives *)

Lemma startswith_spec p s :
  Py.startswith p s = true ↔ ∃ rest, s = p +:+ rest.
Proof.
  revert s. induction p as [|a p IH]; intros s; simpl.
  - split; [eauto | done].
  - destruct s as [|b s].
    + split; [done | intros [rest H]; discriminate H].
    + rewrite andb_true_iff, bool_decide_eq_true, IH. split.
      * intros [-> [rest ->]]. by exists rest.
      * intros [rest H]. injection H as -> ->. eauto.
Qed.

Lemma contains_spec sub s :
  Py.contains sub s = true ↔ occurs_in sub s.
Proof.
  unfold occurs_in. induction s as [|c s IH]; simpl.
  - rewrite orb_false_r, startswith_spec. split.
    + intros [rest H]. exists EmptyString, rest. done.
    + intros [[|b before] [after H]]; [eauto|discriminate H].
  - rewrite orb_true_iff, startswith_spec, IH. split.
    + intros [[rest H] | (before & after & ->)].
      * by exists EmptyString, rest.
      * by exists (String c before), after.
    + intros [[|b before] [after H]].
      * left. by exists after.
      * right. injection H as -> ->. eauto.
Qed.

Lemma four_digits_upto :
  forallb (λ k, four_digits (Py.str_int (1000 + Z.of_nat k))) (seq 0 (Z.to_nat 9000)) = true.
Proof. vm_compute. reflexivity. Qed.

Lemma str_int_four_digits n :
  1000 ≤ n ≤ 9999 → four_digits (Py.str_int n) = true.
Proof.
  intros Hn. pose proof four_digits_upto as H.
  rewrite forallb_forall in H.
  specialize (H (Z.to_nat (n - 1000))).
  rewrite Z2Nat.id in H by lia.
  replace (1000 + (n - 1000)) with n in H by lia.
  apply H, in_seq. lia.
Qed.

Lemma randint_range a b r : a ≤ b → a ≤ Py.randint a b r ≤ b.
Proof.
  intros Hab. unfold Py.randint.
  pose proof (Z.mod_pos_bound r (b - a + 1)). lia.
Qed.

(** ** Running the handlers *)

Lemma detect_intent_run intent_files message st :
  ∃ out, detect_intent intent_files message st =
    (Ok (detected intent_files message),
     {| whatsapp_conversations := whatsapp_conversations st;
        stdout := stdout st ++ out;
        predict_calls := predict_calls st |})
    ∧ (out = [] ∨ ∃ n, out = [PrintDetected (detected intent_files message) n]).
Proof.
  unfold detect_intent, detected.
  destruct (score_files _ _) as [|first rest].
  - exists []. rewrite app_nil_r. destruct st; auto.
  - eexists. split; [reflexivity | eauto].
Qed.

Lemma analyze_invalid_run category_model complaint st :
  let text := complaint_text (title complaint) (description complaint) in
  coherence_predict text = false →
  analyze_complaint_web coherence_predict category_model complaint st =
    (Ok {[ "isComplaintValid" := VBool false;
           "reasoning" := VStr "Invalid complaint text." ]},
     logged st [(Coherence, text)]).
Proof.
  intros text Hv. unfold analyze_complaint_web, mbind, M_bind, call_coherence.
  fold text. rewrite Hv. reflexivity.
Qed.

Lemma analyze_valid_run category_model complaint st :
  let text := complaint_text (title complaint) (description complaint) in
  coherence_predict text = true →
  analyze_complaint_web coherence_predict category_model complaint st =
    (Ok {[ "priority" := VStr (priority_of text);
           "isComplaintValid" := VBool true;
           "reasoning" := VStr EmptyString;
           "suggestedCategory" := VStr (category_model text);
           "estimatedResolutionDays" := VInt 5 ]},
     logged st [(Coherence, text); (Category, text)]).
Proof.
  intros text Hv.
  unfold analyze_complaint_web, mbind, M_bind, call_coherence, call_category.
  fold text. rewrite Hv. cbn. unfold logged. cbn.
  rewrite <- app_assoc. reflexivity.
Qed.

Lemma dict_truthy_insert (d : dict) k v : dict_truthy (<[k := v]> d) = true.
Proof.
  unfold dict_truthy. rewrite bool_decide_eq_false_2; [done|].
  apply insert_non_empty.
Qed.

Lemma flow_run user_phone desc st :
  flow user_phone desc st =
    (Ok {| session := Some (flow_session desc (flow_labels desc));
           response_text := flow_reply (flow_labels desc) |},
     logged st (flow_calls desc)).
Proof.
  unfold start_complaint_flow, flow_labels, flow_calls.
  unfold mbind at 1. unfold M_bind at 1.
  destruct (coherence_predict (complaint_text "WhatsApp Complaint" desc)) eqn:Hv.
  - rewrite analyze_valid_run by exact Hv.
    rewrite dict_truthy_insert. unfold truthy_get, getitem.
    simplify_map_eq. unfold mbind, M_bind, mret, M_ret.
    simplify_map_eq. reflexivity.
  - rewrite analyze_invalid_run by exact Hv.
    rewrite dict_truthy_insert. unfold truthy_get, getitem.
    simplify_map_eq. unfold mbind, M_bind, mret, M_ret.
    simplify_map_eq. reflexivity.
Qed.

Lemma without_session_step intent_files user_phone user_message st :
  ∃ l st',
    without_session coherence_predict category_predict
      intent_files user_phone user_message st = (Ok (FallThrough l), st')
    ∧ whatsapp_conversations st' = whatsapp_conversations st
    ∧ ∃ s', session l = Some s' ∧ written (whatsapp_conversations st !! user_phone) user_message s'.
Proof.
  unfold without_session.
  destruct (detect_intent_run intent_files user_message st) as (out & Hrun & _).
  unfold mbind at 1. unfold M_bind at 1. rewrite Hrun.
  repeat case_bool_decide.
  - unfold mbind, M_bind. rewrite flow_run. eexists _, _. split; [reflexivity|].
    split; [reflexivity|]. eexists. split; [reflexivity|]. constructor.
  - eexists _, _. split; [reflexivity|]. split; [reflexivity|].
    eexists. split; [reflexivity|]. constructor.
  - eexists _, _. split; [reflexivity|]. split; [reflexivity|].
    eexists. split; [reflexivity|]. constructor.
Qed.

Lemma with_session_step intent_files entropy user_phone user_message s st :
  ∃ out st',
    with_session coherence_predict category_predict
      intent_files entropy user_phone user_message s st = (Ok out, st')
    ∧ match out with
      | Return _ =>
          whatsapp_conversations st' = delete user_phone (whatsapp_conversations st)
      | FallThrough l =>
          whatsapp_conversations st' = whatsapp_conversations st
          ∧ ∃ s', session l = Some s' ∧ written (Some s) user_message s'
      end.
Proof.
  unfold with_session.
  destruct (stage_is s "greeting") eqn:Hg.
  { destruct (detect_intent_run intent_files user_message st) as (out & Hrun & _).
    unfold mbind at 1. unfold M_bind at 1. rewrite Hrun.
    repeat case_bool_decide.
    - unfold mbind, M_bind. rewrite flow_run. eexists _, _. split; [reflexivity|].
      split; [reflexivity|]. eexists. split; [reflexivity|]. constructor.
    - eexists _, _. split; [reflexivity|]. split; [reflexivity|].
      eexists. split; [reflexivity|]. by eapply written_greeting_to_status.
    - eexists _, _. split; [reflexivity|]. split; [reflexivity|].
      eexists. split; [reflexivity|]. by eapply written_greeting_kept. }
  destruct (stage_is s "get_description") eqn:Hd.
  { unfold mbind, M_bind. rewrite flow_run. eexists _, _. split; [reflexivity|].
    split; [reflexivity|]. eexists. split; [reflexivity|]. constructor. }
  destruct (stage_is s "get_location") eqn:Hl.
  { eexists _, _. split; [reflexivity|]. split; [reflexivity|].
    eexists. split; [reflexivity|]. by eapply written_location. }
  destruct (stage_is s "get_password") eqn:Hp.
  { eexists _, _. split; [reflexivity|]. reflexivity. }
  destruct (stage_is s "get_status_id") eqn:Hs.
  { eexists _, _. split; [reflexivity|]. reflexivity. }
  eexists _, _. split; [reflexivity|]. split; [reflexivity|].
  eexists. split; [reflexivity|]. by eapply written_unchanged.
Qed.

(** Every call of the webhook returns a reply, never raises, and either
    removes the sender's entry or stores one of the sessions of [written];
    the entries of the other users are not touched. *)
Lemma webhook_step intent_files entropy message st :
  let user_phone := Py.last_field ":" (From message) in
  let user_message := Py.strip (Body message) in
  ∃ reply st',
    webhook intent_files entropy message st = (Ok reply, st')
    ∧ (whatsapp_conversations st' = delete user_phone (whatsapp_conversations st)
       ∨ ∃ s', whatsapp_conversations st'
                 = <[user_phone := s']> (whatsapp_conversations st)
               ∧ written (whatsapp_conversations st !! user_phone) user_message s').
Proof.
  intros user_phone user_message. unfold whatsapp_bot.
  fold user_phone user_message.
  unfold mbind at 1. unfold M_bind at 1. unfold conversations_get at 1.
  assert (Hfresh : ∃ reply st',
    (out ← without_session coherence_predict category_predict
              intent_files user_phone user_message;
     match out with
     | Return response => mret response
     | FallThrough l =>
         match session l with
         | Some s => conversations_set user_phone s
         | None => mret tt
         end;; mret (response_text l)
     end) st = (Ok reply, st')
    ∧ (whatsapp_conversations st' = delete user_phone (whatsapp_conversations st)
       ∨ ∃ s', whatsapp_conversations st'
                 = <[user_phone := s']> (whatsapp_conversations st)
               ∧ written (whatsapp_conversations st !! user_phone) user_message s')).
  { destruct (without_session_step intent_files user_phone user_message st)
      as (l & st1 & Hrun & Hconv & s' & Hs' & Hw).
    unfold mbind at 1. unfold M_bind at 1. rewrite Hrun, Hs'.
    eexists _, _. split; [reflexivity|]. right. exists s'.
    cbn. rewrite Hconv. done. }
  destruct (whatsapp_conversations st !! user_phone) as [s|] eqn:Hstored;
    [destruct (dict_truthy s) eqn:Ht|]; try exact Hfresh.
  clear Hfresh.
  destruct (with_session_step intent_files entropy user_phone user_message s st)
    as (out & st1 & Hrun & Hout).
  unfold mbind at 1. unfold M_bind at 1. rewrite Hrun.
  destruct out as [response | l].
  - eexists _, _. split; [reflexivity|]. by left.
  - destruct Hout as (Hconv & s' & Hs' & Hw). rewrite Hs'.
    eexists _, _. split; [reflexivity|]. right. exists s'.
    cbn. rewrite Hconv. done.
Qed.

(** ** The fields a stage comes with *)

Lemma stage_is_true s stage : stage_is s stage = true ↔ has_stage s stage.
Proof. unfold stage_is, has_stage. apply bool_decide_eq_true. Qed.

(** Close a clause of [session_fields_ok] whose stage is not the
    session's, or whose fields are in sight. *)
Ltac by_stage :=
  solve [ intros;
          repeat match goal with H : _ ∨ _ |- _ => destruct H end;
          simplify_eq; eauto ].

Lemma written_fields_ok stored user_message s' :
  (∀ s, stored = Some s → session_fields_ok s) →
  written stored user_message s' → session_fields_ok s'.
Proof.
  intros Hstored Hw. unfold session_fields_ok, has_stage, populated.
  destruct Hw as [ | | | s -> Hg | s -> Hg | s -> Hl | s -> Hg Hd Hl Hp Hs].
  - unfold flow_session. simplify_map_eq. repeat split; by_stage.
  - simplify_map_eq. repeat split; try by_stage.
    intros _. repeat constructor.
  - simplify_map_eq. repeat split; try by_stage.
    intros _. repeat constructor.
  - apply stage_is_true in Hg. destruct (Hstored s eq_refl) as (_ & _ & Hnone).
    specialize (Hnone (or_introl Hg)).
    simplify_map_eq. repeat split; try by_stage.
    intros _. eapply Forall_impl; [exact Hnone|].
    intros field Hf. cbn beta in *.
    destruct (decide (field = "stage")) as [->|Hne]; [|by rewrite lookup_insert_ne].
    unfold has_stage in Hg. congruence.
  - by apply Hstored.
  - apply stage_is_true in Hl. destruct (Hstored s eq_refl) as (Hloc & _ & _).
    destruct (Hloc Hl) as (Hd & Hc & Hp).
    unfold populated in *. simplify_map_eq. repeat split; by_stage.
  - by apply Hstored.
Qed.

(** C6.  Every call of the webhook preserves the invariant that ties the
    stage of a stored session to its fields: at stage [get_location] the
    description, the category and the priority are populated; at stage
    [get_password] the location is populated as well; at the stages
    [greeting] and [get_status_id] no complaint field is present. *)
Theorem webhook_preserves_session_fields intent_files entropy message st :
  store_fields_ok (whatsapp_conversations st) →
  store_fields_ok
    (whatsapp_conversations (webhook intent_files entropy message st).2).
Proof.
  intros Hok.
  destruct (webhook_step intent_files entropy message st)
    as (reply & st' & Hrun & [Hdel | (s' & Hins & Hw)]); rewrite Hrun; cbn.
  - rewrite Hdel. by apply map_Forall_delete.
  - rewrite Hins. apply map_Forall_insert_2; [|done].
    eapply written_fields_ok; [|exact Hw].
    intros s Hs. by eapply (map_Forall_lookup_1 _ _ _ _ Hok).
Qed.

(** ** The stages the webhook stores *)

Lemma analyze_keeps_conversations complaint st :
  whatsapp_conversations (analyze complaint st).2 = whatsapp_conversations st.
Proof.
  destruct (coherence_predict
    (complaint_text (title complaint) (description complaint))) eqn:Hv.
  - by rewrite analyze_valid_run.
  - by rewrite analyze_invalid_run.
Qed.

Lemma written_not_get_description stored user_message s' :
  written stored user_message s' → stage_is s' "get_description" = false.
Proof.
  intros Hw. apply bool_decide_eq_false.
  destruct Hw as [ | | | s -> Hg | s -> Hg | s -> Hl | s -> Hg Hd Hl Hp Hs];
    try (unfold flow_session; by simplify_map_eq).
  - apply stage_is_true in Hg. unfold has_stage in Hg. congruence.
  - by apply bool_decide_eq_false in Hd.
Qed.

Lemma written_known_stage stored user_message s' :
  (∀ s, stored = Some s → known_stage s) →
  written stored user_message s' → known_stage s'.
Proof.
  intros Hstored Hw. unfold known_stage, has_stage, stored_stages.
  destruct Hw as [ | | | s -> Hg | s -> Hg | s -> Hl | s -> Hg Hd Hl Hp Hs].
  - exists "get_location". unfold flow_session. simplify_map_eq.
    split; [set_solver | done].
  - exists "get_status_id". simplify_map_eq. split; [set_solver | done].
  - exists "greeting". simplify_map_eq. split; [set_solver | done].
  - exists "get_status_id". simplify_map_eq. split; [set_solver | done].
  - by apply Hstored.
  - exists "get_password". simplify_map_eq. split; [set_solver | done].
  - by apply Hstored.
Qed.

Lemma reachable_known_stages st :
  reachable st → map_Forall (λ _ s, known_stage s) (whatsapp_conversations st).
Proof.
  induction 1 as [ | st intent_files entropy message _ IH | st complaint _ IH].
  - apply map_Forall_empty.
  - destruct (webhook_step intent_files entropy message st)
      as (reply & st' & Hrun & [Hdel | (s' & Hins & Hw)]); rewrite Hrun; cbn.
    + rewrite Hdel. by apply map_Forall_delete.
    + rewrite Hins. apply map_Forall_insert_2; [|done].
      eapply written_known_stage; [|exact Hw].
      intros s Hs. by eapply (map_Forall_lookup_1 _ _ _ _ IH).
  - by rewrite analyze_keeps_conversations.
Qed.

(** C9.  No call of the webhook stores for its sender a session at stage
    [get_description]; in every state the process reaches, each stored
    session is at one of the stages [greeting], [get_location],
    [get_password], [get_status_id]; hence the test
    [current_stage == "get_description"] fails on every session the
    webhook finds there. *)
Theorem get_description_never_stored :
  (∀ intent_files entropy message st s,
     whatsapp_conversations (webhook intent_files entropy message st).2
       !! Py.last_field ":" (From message) = Some s →
     stage_is s "get_description" = false)
  ∧ (∀ st user_phone s,
       reachable st →
       whatsapp_conversations st !! user_phone = Some s →
       known_stage s ∧ stage_is s "get_description" = false).
Proof.
  split.
  - intros intent_files entropy message st s.
    destruct (webhook_step intent_files entropy message st)
      as (reply & st' & Hrun & [Hdel | (s' & Hins & Hw)]); rewrite Hrun; cbn.
    + rewrite Hdel, lookup_delete_eq. done.
    + rewrite Hins, lookup_insert_eq. intros [= <-].
      by eapply written_not_get_description.
  - intros st user_phone s Hreach Hs.
    pose proof (map_Forall_lookup_1 _ _ _ _ (reachable_known_stages st Hreach) Hs)
      as Hk.
    split; [exact Hk|].
    destruct Hk as (stage & Hin & Hstage). apply bool_decide_eq_false.
    unfold has_stage in Hstage. rewrite Hstage. intros [= ->].
    unfold stored_stages in Hin.
    repeat (apply elem_of_cons in Hin as [Hin | Hin]; [discriminate Hin|]).
    by apply elem_of_nil in Hin.
Qed.

(** ** The paths through the webhook *)

Lemma classified_detected intent_files message st intent :
  classified intent_files message st intent ↔ detected intent_files message = intent.
Proof.
  unfold classified.
  destruct (detect_intent_run intent_files message st) as (out & -> & _). cbn.
  split; [by intros [= ->] | by intros ->].
Qed.

Lemma has_stage_is s stage stage' :
  has_stage s stage → stage_is s stage' = bool_decide (stage = stage').
Proof.
  unfold has_stage, stage_is. intros ->. apply bool_decide_ext.
  split; [by intros [= ->] | by intros ->].
Qed.

(** Decide the comparisons of two string literals in the goal. *)
Ltac decide_literals :=
  repeat match goal with
  | |- context [bool_decide (?a = ?b)] =>
      let v := eval vm_compute in (bool_decide (a = b)) in
      lazymatch v with
      | true => change (bool_decide (a = b)) with true
      | false => change (bool_decide (a = b)) with false
      end
  end.

Lemma has_stage_truthy s stage : has_stage s stage → dict_truthy s = true.
Proof.
  unfold has_stage, dict_truthy. intros Hs.
  rewrite bool_decide_eq_false_2; [done|]. intros ->.
  by rewrite lookup_empty in Hs.
Qed.

Lemma webhook_complaint_flow intent_files entropy message st :
  let user_phone := Py.last_field ":" (From message) in
  let user_message := Py.strip (Body message) in
  enters_complaint_flow intent_files user_message st
    (whatsapp_conversations st !! user_phone) →
  ∃ st',
    webhook intent_files entropy message st
      = (Ok (flow_reply (flow_labels user_message)), st')
    ∧ whatsapp_conversations st'
      = <[user_phone := flow_session user_message (flow_labels user_message)]>
          (whatsapp_conversations st)
    ∧ predict_calls st' = predict_calls st ++ flow_calls user_message.
Proof.
  intros user_phone user_message Henter. unfold whatsapp_bot.
  fold user_phone user_message.
  unfold mbind at 1. unfold M_bind at 1. unfold conversations_get at 1.
  destruct (detect_intent_run intent_files user_message st) as (out & Hrun & _).
  destruct (whatsapp_conversations st !! user_phone) as [s|] eqn:Hstored;
    cbn in Henter.
  - destruct Henter as [[Hg Hc] | Hd].
    + rewrite (has_stage_truthy _ _ Hg). unfold with_session.
      rewrite (has_stage_is _ _ _ Hg). decide_literals.
      apply classified_detected in Hc.
      unfold mbind, M_bind. rewrite Hrun, Hc. decide_literals. cbv beta iota.
      rewrite flow_run. cbn. eexists. split; [reflexivity|]. done.
    + rewrite (has_stage_truthy _ _ Hd). unfold with_session.
      rewrite !(has_stage_is _ _ _ Hd). decide_literals.
      unfold mbind, M_bind. rewrite flow_run. cbn.
      eexists. split; [reflexivity|]. done.
  - unfold without_session. apply classified_detected in Henter.
    unfold mbind, M_bind. rewrite Hrun, Henter. decide_literals. cbv beta iota.
    rewrite flow_run. cbn. eexists. split; [reflexivity|]. done.
Qed.

(** C10.  When the validity model rejects the text of a chat complaint,
    the conversation is not refused: whichever way the message entered the
    complaint flow, the sender's session is stored at stage [get_location]
    with the category [unknown] and the priority [medium] in lower case,
    the reply quotes these two values, and only the validity model was
    consulted. *)
Theorem invalid_chat_complaint_still_advances intent_files entropy message st :
  let user_phone := Py.last_field ":" (From message) in
  let user_message := Py.strip (Body message) in
  coherence_predict (complaint_text "WhatsApp Complaint" user_message) = false →
  enters_complaint_flow intent_files user_message st
    (whatsapp_conversations st !! user_phone) →
  ∃ st',
    webhook intent_files entropy message st
      = (Ok "Got it. I've categorized this as a 'unknown' issue with 'medium' priority. What is the location of this issue?",
         st')
    ∧ whatsapp_conversations st'
      = <[user_phone :=
            <["priority" := VStr "medium"]>
              (<["category" := VStr "unknown"]>
                 {[ "stage" := VStr "get_location";
                    "description" := VStr user_message ]})]>
          (whatsapp_conversations st)
    ∧ predict_calls st'
      = predict_calls st
        ++ [(Coherence, complaint_text "WhatsApp Complaint" user_message)].
Proof.
  intros user_phone user_message Hinvalid Henter.
  destruct (webhook_complaint_flow intent_files entropy message st Henter)
    as (st' & Hrun & Hconv & Hcalls).
  fold user_phone user_message in Hrun, Hconv, Hcalls.
  unfold flow_labels, flow_calls in *. rewrite Hinvalid in *.
  exists st'. done.
Qed.

(** C7.  A message classified as [unknown] is answered, not refused: a
    sender without a session gets the welcome prompt and a session at
    stage [greeting]; a sender whose session is at stage [greeting] gets
    the clarifying prompt and keeps that session.  In both cases the
    webhook returns normally. *)
Theorem unknown_intent_is_answered intent_files entropy message st :
  let user_phone := Py.last_field ":" (From message) in
  let user_message := Py.strip (Body message) in
  classified intent_files user_message st "unknown" →
  (whatsapp_conversations st !! user_phone = None →
   ∃ st',
     webhook intent_files entropy message st = (Ok welcome_prompt, st')
     ∧ whatsapp_conversations st'
       = <[user_phone := {[ "stage" := VStr "greeting" ]}]>
           (whatsapp_conversations st))
  ∧ (∀ s,
       whatsapp_conversations st !! user_phone = Some s →
       has_stage s "greeting" →
       ∃ st',
         webhook intent_files entropy message st = (Ok clarifying_prompt, st')
         ∧ whatsapp_conversations st' = whatsapp_conversations st
         ∧ whatsapp_conversations st' !! user_phone = Some s).
Proof.
  intros user_phone user_message Hc. apply classified_detected in Hc.
  destruct (detect_intent_run intent_files user_message st) as (out & Hrun & _).
  split.
  - intros Hstored. unfold whatsapp_bot. fold user_phone user_message.
    unfold mbind at 1. unfold M_bind at 1. unfold conversations_get at 1.
    rewrite Hstored. unfold without_session.
    unfold mbind, M_bind. rewrite Hrun, Hc. decide_literals. cbv beta iota.
    eexists. split; [reflexivity|]. reflexivity.
  - intros s Hstored Hg. unfold whatsapp_bot. fold user_phone user_message.
    unfold mbind at 1. unfold M_bind at 1. unfold conversations_get at 1.
    rewrite Hstored, (has_stage_truthy _ _ Hg). unfold with_session.
    rewrite (has_stage_is _ _ _ Hg). decide_literals.
    unfold mbind, M_bind. rewrite Hrun, Hc. decide_literals. cbv beta iota.
    eexists. split; [reflexivity|]. cbn.
    rewrite insert_id by done. done.
Qed.

Lemma webhook_location intent_files entropy message st s :
  let user_phone := Py.last_field ":" (From message) in
  let user_message := Py.strip (Body message) in
  whatsapp_conversations st !! user_phone = Some s →
  has_stage s "get_location" →
  webhook intent_files entropy message st
  = (Ok password_prompt,
     {| whatsapp_conversations :=
          <[user_phone := <["stage" := VStr "get_password"]>
                            (<["location" := VStr user_message]> s)]>
            (whatsapp_conversations st);
        stdout := stdout st;
        predict_calls := predict_calls st |}).
Proof.
  intros user_phone user_message Hstored Hl.
  unfold whatsapp_bot. fold user_phone user_message.
  unfold mbind at 1. unfold M_bind at 1. unfold conversations_get at 1.
  rewrite Hstored, (has_stage_truthy _ _ Hl). unfold with_session.
  rewrite !(has_stage_is _ _ _ Hl). decide_literals. reflexivity.
Qed.

Lemma webhook_password intent_files entropy message st s :
  let user_phone := Py.last_field ":" (From message) in
  let user_message := Py.strip (Body message) in
  let complaint_id := "WACMP-" +:+ Py.str_int (Py.randint 1000 9999 entropy) in
  whatsapp_conversations st !! user_phone = Some s →
  has_stage s "get_password" →
  webhook intent_files entropy message st
  = (Ok (filed_reply complaint_id),
     {| whatsapp_conversations := delete user_phone (whatsapp_conversations st);
        stdout := stdout st
          ++ [PrintToBeSaved;
              PrintDetails (<["id" := VStr complaint_id]>
                              (<["password" := VStr user_message]> s))];
        predict_calls := predict_calls st |}).
Proof.
  intros user_phone user_message complaint_id Hstored Hp.
  unfold whatsapp_bot. fold user_phone user_message.
  unfold mbind at 1. unfold M_bind at 1. unfold conversations_get at 1.
  rewrite Hstored, (has_stage_truthy _ _ Hp). unfold with_session.
  rewrite !(has_stage_is _ _ _ Hp). decide_literals.
  fold complaint_id.
  unfold mbind, M_bind, mret, M_ret, print, conversations_pop. cbn.
  rewrite <- app_assoc. reflexivity.
Qed.

Lemma generated_id_matches entropy :
  is_complaint_id ("WACMP-" +:+ Py.str_int (Py.randint 1000 9999 entropy)).
Proof.
  eexists. split; [reflexivity|].
  apply str_int_four_digits, randint_range. lia.
Qed.

Lemma flow_session_stage desc labels :
  has_stage (flow_session desc labels) "get_location".
Proof. unfold has_stage, flow_session. by simplify_map_eq. Qed.

(** C1.  A sender without a session whose first message is classified as
    [file_complaint], and who then sends a location and a password, goes
    through the stages absent, [get_location], [get_password], absent:
    the three calls return normally, the last reply carries an identifier
    matching [WACMP-\d{4}] whatever number is drawn, and the sender's entry
    is gone from the store, which is back to what it was. *)
Theorem complaint_filed_in_three_messages
    sender body1 body2 body3 files1 files2 files3 entropy1 entropy2 entropy3 st0 :
  let user_phone := Py.last_field ":" sender in
  whatsapp_conversations st0 !! user_phone = None →
  classified files1 (Py.strip body1) st0 "file_complaint" →
  ∃ reply1 st1 s1 reply2 st2 s2 complaint_id st3,
    webhook files1 entropy1 {| From := sender; Body := body1 |} st0
      = (Ok reply1, st1)
    ∧ whatsapp_conversations st1 !! user_phone = Some s1
    ∧ has_stage s1 "get_location"
    ∧ webhook files2 entropy2 {| From := sender; Body := body2 |} st1
      = (Ok reply2, st2)
    ∧ whatsapp_conversations st2 !! user_phone = Some s2
    ∧ has_stage s2 "get_password"
    ∧ webhook files3 entropy3 {| From := sender; Body := body3 |} st2
      = (Ok (filed_reply complaint_id), st3)
    ∧ is_complaint_id complaint_id
    ∧ occurs_in complaint_id (filed_reply complaint_id)
    ∧ whatsapp_conversations st3 !! user_phone = None
    ∧ whatsapp_conversations st3 = whatsapp_conversations st0.
Proof.
  intros user_phone Hfresh Hc.
  destruct (webhook_complaint_flow files1 entropy1
              {| From := sender; Body := body1 |} st0) as (st1 & Hrun1 & Hconv1 & _).
  { cbn [From Body]. fold user_phone. by rewrite Hfresh. }
  cbn [From Body] in Hrun1, Hconv1. fold user_phone in Hconv1.
  set (s1 := flow_session (Py.strip body1) (flow_labels (Py.strip body1))) in *.
  assert (Hs1 : whatsapp_conversations st1 !! user_phone = Some s1).
  { by rewrite Hconv1, lookup_insert_eq. }
  pose proof (webhook_location files2 entropy2
                {| From := sender; Body := body2 |} st1 s1 Hs1
                (flow_session_stage _ _)) as Hrun2.
  cbn [From Body] in Hrun2. fold user_phone in Hrun2.
  set (s2 := <["stage" := VStr "get_password"]>
               (<["location" := VStr (Py.strip body2)]> s1)) in *.
  set (st2 := {| whatsapp_conversations :=
                   <[user_phone := s2]> (whatsapp_conversations st1);
                 stdout := stdout st1;
                 predict_calls := predict_calls st1 |}) in *.
  assert (Hs2 : whatsapp_conversations st2 !! user_phone = Some s2).
  { apply lookup_insert_eq. }
  assert (Hp : has_stage s2 "get_password").
  { apply lookup_insert_eq. }
  pose proof (webhook_password files3 entropy3
                {| From := sender; Body := body3 |} st2 s2 Hs2 Hp) as Hrun3.
  cbn [From Body] in Hrun3. fold user_phone in Hrun3.
  eexists _, st1, s1, _, st2, s2, _, _.
  split; [exact Hrun1|]. split; [exact Hs1|].
  split; [apply flow_session_stage|]. split; [exact Hrun2|].
  split; [exact Hs2|]. split; [exact Hp|]. split; [exact Hrun3|].
  split; [apply generated_id_matches|].
  split; [by eexists _, _|].
  cbn [whatsapp_conversations]. split; [apply lookup_delete_eq|].
  subst st2. cbn [whatsapp_conversations].
  rewrite delete_insert_eq, Hconv1, delete_insert_eq.
  by apply delete_id.
Qed.

(** ** The analysis pipeline *)

Lemma priority_of_high text :
  priority_of text = "High"
  ↔ ∃ keyword, keyword ∈ high_priority_keywords
               ∧ occurs_in keyword (Py.lower text).
Proof.
  unfold priority_of.
  destruct (existsb _ _) eqn:Hex.
  - split; [intros _ | done].
    apply existsb_exists in Hex as (keyword & Hin & Hc).
    exists keyword. split; [by apply list_elem_of_In | by apply contains_spec].
  - split; [done | intros (keyword & Hin & Hocc)].
    assert (existsb (λ keyword, Py.contains keyword (Py.lower text))
              high_priority_keywords = true) as Htrue; [|congruence].
    apply existsb_exists. exists keyword.
    split; [by apply list_elem_of_In | by apply contains_spec].
Qed.


(** C2.  When the validity model rejects the combined text, [analyze]
    returns exactly the two fields [isComplaintValid] (false) and
    [reasoning]: no category, no priority, no resolution time; the
    validity model is the only model consulted.  And whatever the models
    answer, a result that is not marked valid carries no category. *)
Theorem invalid_text_short_circuits complaint st :
  let text := complaint_text (title complaint) (description complaint) in
  (coherence_predict text = false →
   ∃ result st',
     analyze complaint st = (Ok result, st')
     ∧ result !! "isComplaintValid" = Some (VBool false)
     ∧ result !! "suggestedCategory" = None
     ∧ result !! "category" = None
     ∧ result !! "priority" = None
     ∧ result !! "estimatedResolutionDays" = None
     ∧ dom result = {[ "isComplaintValid"; "reasoning" ]}
     ∧ predict_calls st' = predict_calls st ++ [(Coherence, text)])
  ∧ (∀ result st',
       analyze complaint st = (Ok result, st') →
       result !! "isComplaintValid" ≠ Some (VBool true) →
       result !! "suggestedCategory" = None ∧ result !! "category" = None).
Proof.
  intros text. split.
  - intros Hv. eexists _, _. split; [by apply analyze_invalid_run|].
    cbn [predict_calls logged]. repeat split; by simplify_map_eq.
  - intros result st' Hrun Hnot.
    destruct (coherence_predict text) eqn:Hv.
    + rewrite analyze_valid_run in Hrun by exact Hv.
      injection Hrun as <- <-. exfalso. apply Hnot. by simplify_map_eq.
    + rewrite analyze_invalid_run in Hrun by exact Hv.
      injection Hrun as <- <-. by simplify_map_eq.
Qed.


(** C8.  For a text the validity model accepts, [estimatedResolutionDays]
    is the constant 5; and the text "There is a gas leak near my house,
    very unsafe" gets the priority [High] along with it. *)
Theorem resolution_days_is_five complaint st :
  let text := complaint_text (title complaint) (description complaint) in
  coherence_predict text = true →
  ∃ result st',
    analyze complaint st = (Ok result, st')
    ∧ result !! "estimatedResolutionDays" = Some (VInt 5)
    ∧ (text = "There is a gas leak near my house, very unsafe" →
       result !! "priority" = Some (VStr "High")).
Proof.
  intros text Hv.
  eexists _, _. split; [by apply analyze_valid_run|].
  fold text. split; [by simplify_map_eq|].
  intros ->. by rewrite lookup_insert_eq.
Qed.

(** ** Intent detection *)

Lemma scores_set_fresh k v scores :
  k ∉ scores.*1 → scores_set k v scores = scores ++ [(k, v)].
Proof.
  induction scores as [|[k' v'] scores IH]; intros Hfresh; simpl; [done|].
  rewrite fmap_cons, not_elem_of_cons in Hfresh. destruct Hfresh as [Hne Hfresh].
  cbn in Hne. rewrite decide_False by done. by rewrite IH.
Qed.

Lemma entries_names words files : (entries words files).*1 ⊆ intent_name <$> files.
Proof.
  intros k. unfold entries. rewrite <- list_fmap_compose.
  rewrite !list_elem_of_fmap. intros (f & -> & Hf).
  apply list_elem_of_filter in Hf as [_ Hf]. by exists f.
Qed.

Lemma entries_snoc words files f :
  entries words (files ++ [f])
  = entries words files
    ++ (if (0 <? score words f)%nat then [(intent_name f, score words f)] else []).
Proof.
  unfold entries. rewrite filter_app, fmap_app. f_equal.
  destruct (0 <? score words f)%nat eqn:Hpos.
  - apply Nat.ltb_lt in Hpos. by rewrite filter_cons_True.
  - apply Nat.ltb_ge in Hpos. rewrite filter_cons_False by lia. done.
Qed.

Lemma score_fold words seen files :
  NoDup (intent_name <$> (seen ++ files)) →
  foldl (scoring_step words) (entries words seen) files
  = entries words (seen ++ files).
Proof.
  revert seen. induction files as [|f files IH]; intros seen Hnd; simpl.
  - by rewrite app_nil_r.
  - replace (seen ++ f :: files) with ((seen ++ [f]) ++ files) in *
      by (by rewrite <- app_assoc).
    rewrite <- IH by done. f_equal.
    rewrite entries_snoc. unfold scoring_step.
    destruct (0 <? score words f)%nat; [|by rewrite app_nil_r].
    apply scores_set_fresh. intros Hin%entries_names.
    rewrite !fmap_app in Hnd. apply NoDup_app in Hnd as [Hnd _].
    apply NoDup_app in Hnd as (_ & Hdisj & _).
    apply (Hdisj _ Hin). apply list_elem_of_here.
Qed.

Lemma score_files_entries words files :
  NoDup (intent_name <$> files) →
  score_files words files = entries words files.
Proof. intros Hnd. by apply (score_fold words [] files). Qed.

Lemma score_files_none words files :
  (∀ f, f ∈ files → words ∩ keywords f = ∅) → score_files words files = [].
Proof.
  unfold score_files. generalize (@nil (string * nat)) as scores.
  induction files as [|f files IH]; intros scores Hnone; cbn [foldl]; [done|].
  unfold score. rewrite (Hnone f) by apply list_elem_of_here.
  rewrite size_empty. cbn [Nat.ltb Nat.leb]. apply IH.
  intros g Hg. by apply Hnone, list_elem_of_further.
Qed.

Lemma max_entry_spec first rest :
  max_entry first rest ∈ first :: rest
  ∧ ∀ kv, kv ∈ first :: rest → (kv.2 ≤ (max_entry first rest).2)%nat.
Proof.
  unfold max_entry. revert first.
  induction rest as [|kv' rest IH]; intros first; simpl.
  - split; [apply list_elem_of_here|]. intros kv ->%list_elem_of_singleton. done.
  - destruct (first.2 <? kv'.2)%nat eqn:Hlt.
    + apply Nat.ltb_lt in Hlt. destruct (IH kv') as [Hin Hmax].
      split; [by apply list_elem_of_further|]. intros kv Hkv.
      apply elem_of_cons in Hkv as [-> | Hkv]; [|by apply Hmax].
      etrans; [|apply (Hmax kv'), list_elem_of_here]. lia.
    + apply Nat.ltb_ge in Hlt. destruct (IH first) as [Hin Hmax].
      split.
      { apply elem_of_cons in Hin as [-> | Hin]; [apply list_elem_of_here|].
        by do 2 apply list_elem_of_further. }
      intros kv Hkv.
      apply elem_of_cons in Hkv as [-> | Hkv]; [apply Hmax, list_elem_of_here|].
      apply elem_of_cons in Hkv as [-> | Hkv].
      * etrans; [exact Hlt|]. apply Hmax, list_elem_of_here.
      * by apply Hmax, list_elem_of_further.
Qed.

(** C4, as amended.  A message whose words meet the keywords of no intent
    file is classified as [unknown]; a message whose words meet the
    keywords of some intent file is classified, provided the intent names
    the files give are pairwise distinct, as an intent whose overlap no
    other intent exceeds. *)
Theorem detect_unknown_or_best_overlap intent_files message st :
  let words := message_words message in
  ((∀ f, f ∈ intent_files → words ∩ keywords f = ∅) →
   classified intent_files message st "unknown")
  ∧ (NoDup (intent_name <$> intent_files) →
     (∃ f, f ∈ intent_files ∧ words ∩ keywords f ≠ ∅) →
     ∃ best,
       best ∈ intent_files
       ∧ classified intent_files message st (intent_name best)
       ∧ words ∩ keywords best ≠ ∅
       ∧ ∀ f, f ∈ intent_files →
           (size (words ∩ keywords f) ≤ size (words ∩ keywords best))%nat).
Proof.
  intros words. split.
  - intros Hnone. apply classified_detected. unfold detected. fold words.
    by rewrite score_files_none.
  - intros Hnd (f0 & Hf0 & Hover).
    assert (Hentry : ∀ f, f ∈ intent_files → (0 < score words f)%nat →
              (intent_name f, score words f) ∈ entries words intent_files).
    { intros f Hf Hpos. unfold entries. apply list_elem_of_fmap.
      exists f. split; [done|]. by apply list_elem_of_filter. }
    assert (Hpos0 : (0 < score words f0)%nat).
    { unfold score.
      assert (size (words ∩ keywords f0) ≠ 0%nat); [|lia].
      apply size_non_empty_iff. by intros ?%leibniz_equiv. }
    destruct (entries words intent_files) as [|first rest] eqn:Hentries.
    { specialize (Hentry f0 Hf0 Hpos0). by apply elem_of_nil in Hentry. }
    destruct (max_entry_spec first rest) as [Hin Hmax].
    rewrite <- Hentries in Hin.
    unfold entries in Hin. apply list_elem_of_fmap in Hin as (best & Hbest & Hb).
    apply list_elem_of_filter in Hb as [Hbpos Hbin].
    exists best. split; [done|]. split; [|split].
    + apply classified_detected. unfold detected. fold words.
      rewrite score_files_entries, Hentries by done. by rewrite Hbest.
    + intros Hempty. unfold score in Hbpos. rewrite Hempty, size_empty in Hbpos.
      lia.
    + intros f Hf. fold (score words f) (score words best).
      change (score words best) with (intent_name best, score words best).2.
      rewrite <- Hbest.
      destruct (decide (0 < score words f)%nat) as [Hpos | Hzero]; [|lia].
      apply (Hmax (intent_name f, score words f)). by apply Hentry.
Qed.


End Properties.

(** ** More on the text primitives *)

Lemma app_cons c s t : String c s +:+ t = String c (s +:+ t).
Proof. reflexivity. Qed.

Lemma app_empty_l t : EmptyString +:+ t = t.
Proof. reflexivity. Qed.

Lemma lower_app a b : Py.lower (a +:+ b) = Py.lower a +:+ Py.lower b.
Proof.
  induction a as [|c a IH]; [done|].
  rewrite app_cons. cbn [Py.lower]. by rewrite IH, app_cons.
Qed.

Lemma startswith_before_char sep kw a b :
  has_char sep kw = false →
  Py.startswith kw (a +:+ String sep b) = Py.startswith kw a.
Proof.
  revert a. induction kw as [|k kw IH]; intros a Hkw; [done|].
  cbn [has_char] in Hkw. apply orb_false_iff in Hkw as [Hk Hkw].
  destruct a as [|c a].
  - rewrite app_empty_l. cbn [Py.startswith]. by rewrite Hk.
  - rewrite app_cons. cbn [Py.startswith]. by rewrite IH.
Qed.

Lemma contains_empty kw : Py.contains kw EmptyString = Py.startswith kw EmptyString.
Proof. cbn [Py.contains]. by rewrite orb_false_r. Qed.

Lemma contains_join sep kw a b :
  has_char sep kw = false →
  Py.contains kw (a +:+ String sep b) = Py.contains kw a || Py.contains kw b.
Proof.
  intros Hkw. induction a as [|c a IH].
  - rewrite app_empty_l, contains_empty.
    change (Py.contains kw (String sep b))
      with (Py.startswith kw (String sep b) || Py.contains kw b).
    rewrite <- (startswith_before_char sep kw EmptyString b Hkw).
    by rewrite app_empty_l.
  - rewrite app_cons.
    change (Py.contains kw (String c (a +:+ String sep b)))
      with (Py.startswith kw (String c (a +:+ String sep b))
            || Py.contains kw (a +:+ String sep b)).
    rewrite <- app_cons, startswith_before_char, IH by done.
    change (Py.contains kw (String c a))
      with (Py.startswith kw (String c a) || Py.contains kw a).
    by rewrite orb_assoc.
Qed.

Lemma all_chars_rev_app P s t :
  all_chars P (String.rev_app s t) = all_chars P s && all_chars P t.
Proof.
  revert t. induction s as [|c s IH]; intros t; [done|].
  cbn [String.rev_app all_chars]. rewrite IH. cbn [all_chars].
  by rewrite andb_assoc, (andb_comm (all_chars P s)), <- andb_assoc.
Qed.

Lemma all_chars_rev P s : all_chars P (String.rev s) = all_chars P s.
Proof. unfold String.rev. rewrite all_chars_rev_app. cbn. by rewrite andb_true_r. Qed.

Lemma rev_not_empty t : t ≠ EmptyString → String.rev t ≠ EmptyString.
Proof.
  destruct t as [|a t]; [done|]. intros _ Hrev.
  apply (f_equal (all_chars (λ _, false))) in Hrev.
  rewrite all_chars_rev in Hrev. discriminate Hrev.
Qed.

Lemma flushed_word P (cur : option string) w :
  match cur with
  | Some t => t ≠ EmptyString ∧ all_chars P t = true
  | None => True
  end →
  w ∈ option_list (String.rev <$> cur) → w ≠ EmptyString ∧ all_chars P w = true.
Proof.
  destruct cur as [t|]; cbn; intros Hcur Hw; [|by apply elem_of_nil in Hw].
  apply list_elem_of_singleton in Hw as ->. destruct Hcur as [Hne Ht].
  rewrite all_chars_rev. split; [by apply rev_not_empty | done].
Qed.

(** The words [s.split()] yields are made of the characters of [s] that
    are not white space, and none is empty. *)
Lemma split_go_words P cur s w :
  (∀ c, Py.isspace c = false → P c = true ∨ has_char c s = false) →
  match cur with
  | Some t => t ≠ EmptyString ∧ all_chars P t = true
  | None => True
  end →
  w ∈ Py.split_go cur s → w ≠ EmptyString ∧ all_chars P w = true.
Proof.
  revert cur. induction s as [|c s IH]; intros cur HP Hcur Hw.
  - by apply (flushed_word P cur).
  - assert (HP' : ∀ c', Py.isspace c' = false → P c' = true ∨ has_char c' s = false).
    { intros c' Hc'. destruct (HP c' Hc') as [? | Hno]; [by left | right].
      cbn [has_char] in Hno. by apply orb_false_iff in Hno as [_ ?]. }
    cbn [Py.split_go] in Hw. destruct (Py.isspace c) eqn:Hc.
    + apply elem_of_app in Hw as [Hw | Hw];
        [by apply (flushed_word P cur) | by apply (IH None)].
    + apply (IH (Some (String c (default EmptyString cur)))); [done| |done].
      split; [done|]. cbn [all_chars]. apply andb_true_iff. split.
      * destruct (HP c Hc) as [? | Hno]; [done|].
        cbn [has_char] in Hno. by rewrite bool_decide_eq_true_2 in Hno.
      * destruct cur as [t|]; [apply Hcur | done].
Qed.

Lemma isupper_lower_char c : Py.isupper (Py.lower_char c) = false.
Proof. destruct c as [[] [] [] [] [] [] [] []]; reflexivity. Qed.

Lemma lower_no_upper c s :
  has_char c (Py.lower s) = true → Py.isupper c = false.
Proof.
  induction s as [|a s IH]; [done|]. cbn [Py.lower has_char].
  intros [Ha | Hs]%orb_true_iff; [|by apply IH].
  apply bool_decide_eq_true in Ha as <-. apply isupper_lower_char.
Qed.

(** Every word of a message, as [detect_intent] splits it, is a non-empty
    string without white space and without upper-case letters. *)
Lemma message_word_chars message w :
  w ∈ message_words message → w ≠ EmptyString ∧ all_chars word_char w = true.
Proof.
  unfold message_words. rewrite elem_of_list_to_set. unfold Py.split.
  apply split_go_words; [|done].
  intros c Hc. unfold word_char. rewrite Hc. cbn.
  destruct (has_char c (Py.lower message)) eqn:Hin; [left | by right].
  by rewrite (lower_no_upper c message Hin).
Qed.

Lemma lstrip_spaces s : all_chars Py.isspace s = true → Py.lstrip s = EmptyString.
Proof.
  induction s as [|c s IH]; [done|]. cbn [all_chars Py.lstrip].
  intros [-> Hs]%andb_true_iff. by apply IH.
Qed.

Lemma strip_spaces s : all_chars Py.isspace s = true → Py.strip s = EmptyString.
Proof. intros Hs. unfold Py.strip. by rewrite lstrip_spaces. Qed.

Lemma split_on_not_nil sep s : Py.split_on sep s ≠ [].
Proof.
  destruct s as [|c s]; [done|]. cbn [Py.split_on].
  destruct (decide (c = sep)); [done|]. by destruct (Py.split_on sep s).
Qed.

Lemma split_on_whole sep s :
  has_char sep s = false → Py.split_on sep s = [s].
Proof.
  induction s as [|c s IH]; [done|]. cbn [has_char Py.split_on].
  intros [Hc Hs]%orb_false_iff. apply bool_decide_eq_false in Hc.
  rewrite decide_False by done. by rewrite IH.
Qed.

Lemma split_on_app sep a b :
  ∃ fields, fields ≠ []
    ∧ Py.split_on sep (a +:+ String sep b) = fields ++ Py.split_on sep b.
Proof.
  induction a as [|c a (fields & Hne & IH)].
  - exists [EmptyString]. split; [done|].
    rewrite app_empty_l. cbn [Py.split_on]. by rewrite decide_True.
  - rewrite app_cons. cbn [Py.split_on]. rewrite IH.
    destruct (decide (c = sep)).
    + by exists (EmptyString :: fields).
    + destruct fields as [|t fields]; [done|]. by exists (String c t :: fields).
Qed.

(** [s.split(sep)[-1]] is what follows the last separator. *)
Lemma last_field_app sep a b :
  Py.last_field sep (a +:+ String sep b) = Py.last_field sep b.
Proof.
  unfold Py.last_field.
  destruct (split_on_app sep a b) as (fields & _ & ->).
  rewrite last_app.
  destruct (last (Py.split_on sep b)) eqn:Hlast; [done|].
  apply last_None in Hlast. by apply split_on_not_nil in Hlast.
Qed.

Lemma last_field_whole sep s :
  has_char sep s = false → Py.last_field sep s = s.
Proof. intros Hs. unfold Py.last_field. by rewrite split_on_whole. Qed.

Lemma startswith_txt_suffix n :
  Py.startswith ".txt" (n +:+ ".txt") = true →
  n = EmptyString ∨ Py.startswith ".txt" n = true.
Proof.
  destruct n as [|c1 [|c2 [|c3 [|c4 n]]]]; [by left|..]; intros H; right;
    rewrite ?app_cons, ?app_empty_l in H; cbn [Py.startswith] in *;
    repeat (apply andb_true_iff in H as [?%bool_decide_eq_true H]); simplify_eq.
  by rewrite !bool_decide_eq_true_2.
Qed.

(** Replacing [.txt] by nothing in [n.txt] gives [n] back when [n] holds
    no [.txt] itself. *)
Lemma replace_txt_suffix n :
  Py.contains ".txt" n = false →
  Py.replace ".txt" EmptyString (n +:+ ".txt") = n.
Proof.
  unfold Py.replace. induction n as [|c n IH]; intros Hn; [done|].
  assert (Hhere : Py.startswith ".txt" (String c n) = false
                  ∧ Py.contains ".txt" n = false).
  { change (Py.contains ".txt" (String c n))
      with (Py.startswith ".txt" (String c n) || Py.contains ".txt" n) in Hn.
    by apply orb_false_iff in Hn. }
  destruct Hhere as [Hstart Hrest].
  rewrite app_cons. cbn [Py.replace_go].
  destruct (Py.startswith ".txt" (String c (n +:+ ".txt"))) eqn:Hs.
  - rewrite <- app_cons in Hs.
    apply startswith_txt_suffix in Hs as [? | Hs]; [done | congruence].
  - by rewrite IH.
Qed.

Lemma has_char_app c a b : has_char c (a +:+ b) = has_char c a || has_char c b.
Proof.
  induction a as [|x a IH]; [done|].
  rewrite app_cons. cbn [has_char]. by rewrite IH, orb_assoc.
Qed.

(** ** More on intent detection *)

(** X13.  A keyword file [intents/n.txt] stands for the intent [n]: the
    directory and the extension are taken off, provided [n] holds neither
    a slash nor a [.txt] of its own. *)
Theorem intent_name_of_keyword_file n keyword_lines :
  has_char "/" n = false →
  Py.contains ".txt" n = false →
  intent_name {| path := "intents/" +:+ n +:+ ".txt"; lines := keyword_lines |} = n.
Proof.
  intros Hslash Htxt. unfold intent_name, Py.basename. cbn [path].
  change ("intents/" +:+ n +:+ ".txt")
    with ("intents" +:+ String "/" (n +:+ ".txt")).
  rewrite last_field_app, last_field_whole.
  - by apply replace_txt_suffix.
  - rewrite has_char_app, Hslash. reflexivity.
Qed.

Lemma scores_set_keys k v scores :
  (scores_set k v scores).*1 ⊆ k :: scores.*1.
Proof.
  induction scores as [|[k' v'] scores IH]; cbn [scores_set].
  - cbn. done.
  - destruct (decide (k = k')) as [->|Hne]; cbn.
    + intros x Hx. by apply list_elem_of_further.
    + intros x [-> | Hx]%elem_of_cons.
      * apply list_elem_of_further, list_elem_of_here.
      * apply IH in Hx. apply elem_of_cons in Hx as [-> | Hx];
          [apply list_elem_of_here | by do 2 apply list_elem_of_further].
Qed.

Lemma score_fold_keys words files scores seen :
  scores.*1 ⊆ intent_name <$> seen →
  (foldl (scoring_step words) scores files).*1 ⊆ intent_name <$> (seen ++ files).
Proof.
  revert scores seen.
  induction files as [|f files IH]; intros scores seen Hs; cbn [foldl].
  - by rewrite app_nil_r.
  - replace (seen ++ f :: files) with ((seen ++ [f]) ++ files)
      by (by rewrite <- app_assoc).
    apply IH. unfold scoring_step. rewrite fmap_app.
    destruct (0 <? score words f)%nat.
    + intros x Hx. apply scores_set_keys in Hx.
      apply elem_of_app. apply elem_of_cons in Hx as [-> | Hx].
      * right. apply list_elem_of_here.
      * left. by apply Hs.
    + intros x Hx. apply elem_of_app. left. by apply Hs.
Qed.

Lemma score_files_keys words files :
  (score_files words files).*1 ⊆ intent_name <$> files.
Proof. by apply (score_fold_keys words files [] []). Qed.

(** X9.  [detect_intent] never invents an intent: what it returns is the
    sentinel [unknown] or the intent name of one of the keyword files. *)
Theorem detect_intent_unknown_or_indexed intent_files message st :
  ∃ intent,
    (detect_intent intent_files message st).1 = Ok intent
    ∧ (intent = "unknown" ∨ ∃ f, f ∈ intent_files ∧ intent = intent_name f).
Proof.
  exists (detected intent_files message).
  split; [by apply classified_detected|].
  unfold detected.
  pose proof (score_files_keys (message_words message) intent_files) as Hkeys.
  destruct (score_files (message_words message) intent_files)
    as [|first rest]; [by left | right].
  destruct (max_entry_spec first rest) as [Hin _].
  assert (Hname : (max_entry first rest).1 ∈ (first :: rest).*1).
  { apply list_elem_of_fmap. by exists (max_entry first rest). }
  apply Hkeys, list_elem_of_fmap in Hname as (f & -> & Hf). by exists f.
Qed.

(** X11.  The message is lower-cased and split at white space, the
    keywords are taken as written: a file whose keywords all hold an
    upper-case letter or a white space scores nothing, whatever the
    message. *)
Theorem uppercase_or_spaced_keywords_never_count f message :
  (∀ kw, kw ∈ keywords f → all_chars word_char kw = false) →
  score (message_words message) f = 0%nat.
Proof.
  intros Hkw. unfold score. apply size_empty_iff.
  intros w. split; [|by intros ?%elem_of_empty].
  intros [Hw Hk]%elem_of_intersection.
  apply message_word_chars in Hw as [_ Hw]. rewrite (Hkw w Hk) in Hw.
  discriminate Hw.
Qed.

Lemma max_entry_first_of_the_best before best later rest :
  (∀ kv, kv ∈ before → (kv.2 < best.2)%nat) →
  (∀ kv, kv ∈ later → (kv.2 ≤ best.2)%nat) →
  ∃ l1 l2,
    before ++ best :: later ++ rest = l1 ++ max_entry best rest :: l2
    ∧ (∀ kv, kv ∈ l1 → (kv.2 < (max_entry best rest).2)%nat)
    ∧ (∀ kv, kv ∈ l2 → (kv.2 ≤ (max_entry best rest).2)%nat).
Proof.
  unfold max_entry. revert before best later.
  induction rest as [|kv' rest IH]; intros before best later Hb Hl; cbn [foldl].
  - exists before, later. by rewrite app_nil_r.
  - destruct (best.2 <? kv'.2)%nat eqn:Hlt.
    + apply Nat.ltb_lt in Hlt.
      destruct (IH (before ++ best :: later) kv' []) as (l1 & l2 & Heq & H1 & H2).
      * intros kv [Hkv | [-> | Hkv]%elem_of_cons]%elem_of_app; [|done|].
        -- specialize (Hb kv Hkv). lia.
        -- specialize (Hl kv Hkv). lia.
      * by intros kv ?%elem_of_nil.
      * exists l1, l2. split; [|done]. rewrite <- Heq.
        by rewrite <- !app_assoc.
    + apply Nat.ltb_ge in Hlt.
      destruct (IH before best (later ++ [kv'])) as (l1 & l2 & Heq & H1 & H2).
      * done.
      * intros kv [Hkv | ->%list_elem_of_singleton]%elem_of_app; [by apply Hl | done].
      * exists l1, l2. split; [|done]. rewrite <- Heq.
        by rewrite <- !app_assoc.
Qed.

Lemma entries_split words files l1 e l2 :
  entries words files = l1 ++ e :: l2 →
  ∃ before best after,
    files = before ++ best :: after
    ∧ e = (intent_name best, score words best)
    ∧ (0 < score words best)%nat
    ∧ entries words before = l1
    ∧ entries words after = l2.
Proof.
  revert l1. induction files as [|f files IH]; intros l1 Heq.
  - by destruct l1.
  - unfold entries in Heq. destruct (decide (0 < score words f)%nat) as [Hpos|Hzero].
    + rewrite filter_cons_True in Heq by done. rewrite fmap_cons in Heq.
      destruct l1 as [|e1 l1]; simplify_eq/=.
      * exists [], f, files. done.
      * destruct (IH l1) as (before & best & after & -> & -> & Hb & <- & <-); [done|].
        exists (f :: before), best, after. repeat split; [done|].
        unfold entries. by rewrite filter_cons_True.
    + rewrite filter_cons_False in Heq by done.
      destruct (IH l1 Heq) as (before & best & after & -> & -> & Hb & <- & <-).
      exists (f :: before), best, after. repeat split; [done|].
      unfold entries. by rewrite filter_cons_False.
Qed.

Lemma entries_elem words files f :
  f ∈ files → (0 < score words f)%nat →
  (intent_name f, score words f) ∈ entries words files.
Proof.
  intros Hf Hpos. unfold entries. apply list_elem_of_fmap.
  exists f. split; [done|]. by apply list_elem_of_filter.
Qed.

(** X10.  Among the intents of largest overlap the one whose file comes
    first wins: every file before the winner overlaps the message
    strictly less, every file after it at most as much.  The intent names
    are taken to be distinct. *)
Theorem ties_go_to_the_first_file intent_files message st :
  let words := message_words message in
  NoDup (intent_name <$> intent_files) →
  (∃ f, f ∈ intent_files ∧ words ∩ keywords f ≠ ∅) →
  ∃ before best after,
    intent_files = before ++ best :: after
    ∧ (detect_intent intent_files message st).1 = Ok (intent_name best)
    ∧ (∀ f, f ∈ before → (score words f < score words best)%nat)
    ∧ (∀ f, f ∈ after → (score words f ≤ score words best)%nat).
Proof.
  intros words Hnd (f0 & Hf0 & Hover).
  assert (Hpos0 : (0 < score words f0)%nat).
  { unfold score.
    assert (size (words ∩ keywords f0) ≠ 0%nat); [|lia].
    apply size_non_empty_iff. by intros ?%leibniz_equiv. }
  pose proof (entries_elem words intent_files f0 Hf0 Hpos0) as Hin0.
  destruct (entries words intent_files) as [|first rest] eqn:Hentries;
    [by apply elem_of_nil in Hin0|].
  destruct (max_entry_first_of_the_best [] first [] rest)
    as (l1 & l2 & Heq & H1 & H2); [by intros ? ?%elem_of_nil ..|].
  cbn [app] in Heq. rewrite <- Hentries in Heq.
  apply entries_split in Heq
    as (before & best & after & -> & Hbest & Hbpos & <- & <-).
  exists before, best, after. split; [done|]. split; [|split].
  - apply classified_detected. unfold detected. fold words.
    rewrite score_files_entries, Hentries by done. by rewrite Hbest.
  - intros f Hf. change (score words best) with (intent_name best, score words best).2.
    rewrite <- Hbest.
    destruct (decide (0 < score words f)%nat) as [Hpos | Hzero].
    + apply (H1 (intent_name f, score words f)). by apply entries_elem.
    + rewrite Hbest. cbn. lia.
  - intros f Hf. change (score words best) with (intent_name best, score words best).2.
    rewrite <- Hbest.
    destruct (decide (0 < score words f)%nat) as [Hpos | Hzero]; [|lia].
    apply (H2 (intent_name f, score words f)). by apply entries_elem.
Qed.

Lemma scores_set_positive k v scores :
  (0 < v)%nat → Forall (λ kv, (0 < kv.2)%nat) scores →
  Forall (λ kv, (0 < kv.2)%nat) (scores_set k v scores).
Proof.
  intros Hv. induction 1 as [|[k' v'] scores Hkv Hrest IH]; cbn [scores_set].
  - by repeat constructor.
  - destruct (decide (k = k')); constructor; done.
Qed.

Lemma score_fold_positive words files scores :
  Forall (λ kv, (0 < kv.2)%nat) scores →
  Forall (λ kv, (0 < kv.2)%nat) (foldl (scoring_step words) scores files).
Proof.
  revert scores. induction files as [|f files IH]; intros scores Hs; [done|].
  cbn [foldl]. apply IH. unfold scoring_step.
  destruct (0 <? score words f)%nat eqn:Hpos; [|done].
  apply scores_set_positive; [by apply Nat.ltb_lt | done].
Qed.

Lemma scores_set_not_nil k v scores : scores_set k v scores ≠ [].
Proof. destruct scores as [|[k' v'] scores]; cbn; [done|]. by case_decide. Qed.

Lemma score_fold_not_nil words files scores :
  scores ≠ [] ∨ (∃ f, f ∈ files ∧ (0 < score words f)%nat) →
  foldl (scoring_step words) scores files ≠ [].
Proof.
  revert scores. induction files as [|f files IH]; intros scores Hor; cbn [foldl].
  - destruct Hor as [? | (f & Hf & _)]; [done | by apply elem_of_nil in Hf].
  - apply IH. unfold scoring_step.
    destruct (0 <? score words f)%nat eqn:Hpos.
    + left. apply scores_set_not_nil.
    + destruct Hor as [? | (g & Hg & Hgpos)]; [by left|].
      apply elem_of_cons in Hg as [-> | Hg]; [|right; by exists g].
      apply Nat.ltb_ge in Hpos. lia.
Qed.

(** X17.  [detect_intent] prints when, and only when, some keyword file
    overlaps the message: then one line, naming the intent it returns and
    a score of at least one; with no overlap it returns [unknown] and
    prints nothing. *)
Theorem detect_intent_prints_what_it_found intent_files message st :
  let words := message_words message in
  ((∀ f, f ∈ intent_files → words ∩ keywords f = ∅) →
   detect_intent intent_files message st = (Ok "unknown", st))
  ∧ ((∃ f, f ∈ intent_files ∧ words ∩ keywords f ≠ ∅) →
     ∃ intent n,
       (0 < n)%nat
       ∧ detect_intent intent_files message st
         = (Ok intent,
            {| whatsapp_conversations := whatsapp_conversations st;
               stdout := stdout st ++ [PrintDetected intent n];
               predict_calls := predict_calls st |})).
Proof.
  intros words. unfold detect_intent. fold words. split.
  - intros Hnone. by rewrite score_files_none.
  - intros (f & Hf & Hover).
    assert (Hpos : (0 < score words f)%nat).
    { unfold score.
      assert (size (words ∩ keywords f) ≠ 0%nat); [|lia].
      apply size_non_empty_iff. by intros ?%leibniz_equiv. }
    pose proof (score_fold_not_nil words intent_files []
                  (or_intror (ex_intro _ f (conj Hf Hpos)))) as Hne.
    pose proof (score_fold_positive words intent_files [] (Forall_nil_2 _)) as Hall.
    change (foldl (scoring_step words) [] intent_files)
      with (score_files words intent_files) in Hne, Hall.
    destruct (score_files words intent_files) as [|first rest]; [done|].
    destruct (max_entry_spec first rest) as [Hin _].
    rewrite Forall_forall in Hall. specialize (Hall _ Hin).
    exists (max_entry first rest).1, (max_entry first rest).2.
    split; [exact Hall | reflexivity].
Qed.

(** ** More on the handlers *)

Section Further.

Variable coherence_predict : string → bool.
Variable category_predict : string → string.

Abbreviation analyze := (analyze_complaint_web coherence_predict category_predict).
Abbreviation flow := (start_complaint_flow coherence_predict category_predict).
Abbreviation webhook := (whatsapp_bot coherence_predict category_predict).
Abbreviation labels := (flow_labels coherence_predict category_predict).
Abbreviation calls_of := (flow_calls coherence_predict).

(** Decide the comparisons of two string literals in the goal. *)
Ltac compare_literals :=
  repeat match goal with
  | |- context [bool_decide (?a = ?b)] =>
      let v := eval vm_compute in (bool_decide (a = b)) in
      lazymatch v with
      | true => change (bool_decide (a = b)) with true
      | false => change (bool_decide (a = b)) with false
      end
  end.

(** Name what a finished run printed and which models it called. *)
Ltac close_effects :=
  eexists _, _, _, _; split; [reflexivity|];
  cbn [stdout predict_calls logged];
  split; [first [reflexivity | symmetry; apply app_nil_r
                | by rewrite <- app_assoc]|];
  split; [first [reflexivity | symmetry; apply app_nil_r]|];
  first [by left | by right].

(** What a call of the webhook adds to the output and to the record of
    model calls. *)
Lemma webhook_effects intent_files entropy message st :
  let user_message := Py.strip (Body message) in
  ∃ reply st' out calls,
    webhook intent_files entropy message st = (Ok reply, st')
    ∧ stdout st' = stdout st ++ out
    ∧ predict_calls st' = predict_calls st ++ calls
    ∧ (calls = [] ∨ calls = calls_of user_message).
Proof.
  intros user_message. unfold whatsapp_bot. fold user_message.
  set (user_phone := Py.last_field ":" (From message)).
  unfold mbind at 1. unfold M_bind at 1. unfold conversations_get at 1.
  destruct (detect_intent_run intent_files user_message st) as (out & Hrun & _).
  assert (Hfresh : ∃ reply st' out calls,
    (out ← without_session coherence_predict category_predict
              intent_files user_phone user_message;
     match out with
     | Return response => mret response
     | FallThrough l =>
         match session l with
         | Some s => conversations_set user_phone s
         | None => mret tt
         end;; mret (response_text l)
     end) st = (Ok reply, st')
    ∧ stdout st' = stdout st ++ out
    ∧ predict_calls st' = predict_calls st ++ calls
    ∧ (calls = [] ∨ calls = calls_of user_message)).
  { unfold without_session, mbind, M_bind. rewrite Hrun.
    repeat case_bool_decide; [rewrite flow_run|..]; close_effects. }
  destruct (whatsapp_conversations st !! user_phone) as [s|];
    [destruct (dict_truthy s)|]; try exact Hfresh.
  clear Hfresh. unfold with_session.
  destruct (stage_is s "greeting").
  { unfold mbind, M_bind. rewrite Hrun.
    repeat case_bool_decide; [rewrite flow_run|..]; close_effects. }
  destruct (stage_is s "get_description").
  { unfold mbind, M_bind. rewrite flow_run. close_effects. }
  destruct (stage_is s "get_location"); [close_effects|].
  destruct (stage_is s "get_password"); [close_effects|].
  destruct (stage_is s "get_status_id"); close_effects.
Qed.

(** X7.  A call of the webhook consults the models only through the
    complaint flow: it calls nothing, or the validity model alone when
    that model rejects the text, or the validity model and then the
    category model when it accepts it; the text is always [WhatsApp
    Complaint], a space and the stripped message. *)
Theorem webhook_model_calls intent_files entropy message st :
  let text := complaint_text "WhatsApp Complaint" (Py.strip (Body message)) in
  ∃ calls,
    predict_calls (webhook intent_files entropy message st).2
      = predict_calls st ++ calls
    ∧ (calls = []
       ∨ (calls = [(Coherence, text)] ∧ coherence_predict text = false)
       ∨ (calls = [(Coherence, text); (Category, text)]
          ∧ coherence_predict text = true)).
Proof.
  intros text.
  destruct (webhook_effects intent_files entropy message st)
    as (reply & st' & out & calls & -> & _ & Hcalls & Hwhich).
  exists calls. split; [exact Hcalls|].
  destruct Hwhich as [-> | ->]; [by left | right].
  unfold flow_calls. fold text. destruct (coherence_predict text); auto.
Qed.

(** X2.  No dictionary access of the webhook raises [KeyError]: with the
    keyword files read, the run ends in a reply.  And it touches no entry
    of the store but the sender's. *)
Theorem webhook_replies_and_keeps_other_sessions intent_files entropy message st :
  ∃ reply st',
    webhook intent_files entropy message st = (Ok reply, st')
    ∧ ∀ other,
        other ≠ Py.last_field ":" (From message) →
        whatsapp_conversations st' !! other = whatsapp_conversations st !! other.
Proof.
  destruct (webhook_step coherence_predict category_predict
              intent_files entropy message st)
    as (reply & st' & Hrun & [Hdel | (s' & Hins & _)]);
    exists reply, st'; (split; [exact Hrun|]); intros other Hother.
  - by rewrite Hdel, lookup_delete_ne.
  - by rewrite Hins, lookup_insert_ne.
Qed.

Lemma webhook_status_id intent_files entropy message st s :
  let user_phone := Py.last_field ":" (From message) in
  whatsapp_conversations st !! user_phone = Some s →
  has_stage s "get_status_id" →
  webhook intent_files entropy message st
  = (Ok (status_reply (Py.strip (Body message))),
     {| whatsapp_conversations := delete user_phone (whatsapp_conversations st);
        stdout := stdout st;
        predict_calls := predict_calls st |}).
Proof.
  intros user_phone Hstored Hs.
  unfold whatsapp_bot. fold user_phone.
  unfold mbind at 1. unfold M_bind at 1. unfold conversations_get at 1.
  rewrite Hstored, (has_stage_truthy _ _ Hs). unfold with_session.
  rewrite !(has_stage_is _ _ _ Hs). compare_literals. reflexivity.
Qed.

(** X1.  A sender without a session whose message is classified as
    [check_status] is asked for the identifier and gets a session at
    stage [get_status_id]; whatever comes next is taken for the
    identifier, echoed in the reply, and the session is removed.  No model
    is consulted on the way. *)
Theorem status_check_in_two_messages
    sender body1 body2 files1 files2 entropy1 entropy2 st0 :
  let user_phone := Py.last_field ":" sender in
  whatsapp_conversations st0 !! user_phone = None →
  classified files1 (Py.strip body1) st0 "check_status" →
  ∃ st1 st2,
    webhook files1 entropy1 {| From := sender; Body := body1 |} st0
      = (Ok status_prompt, st1)
    ∧ whatsapp_conversations st1 !! user_phone
      = Some {[ "stage" := VStr "get_status_id" ]}
    ∧ webhook files2 entropy2 {| From := sender; Body := body2 |} st1
      = (Ok (status_reply (Py.strip body2)), st2)
    ∧ whatsapp_conversations st2 !! user_phone = None
    ∧ whatsapp_conversations st2 = whatsapp_conversations st0
    ∧ predict_calls st2 = predict_calls st0.
Proof.
  intros user_phone Hfresh Hc. apply classified_detected in Hc.
  destruct (detect_intent_run files1 (Py.strip body1) st0) as (out & Hrun & _).
  assert (Hrun1 : webhook files1 entropy1 {| From := sender; Body := body1 |} st0
    = (Ok status_prompt,
       {| whatsapp_conversations :=
            <[user_phone := {[ "stage" := VStr "get_status_id" ]}]>
              (whatsapp_conversations st0);
          stdout := stdout st0 ++ out;
          predict_calls := predict_calls st0 |})).
  { unfold whatsapp_bot. cbn [From Body]. fold user_phone.
    unfold mbind at 1. unfold M_bind at 1. unfold conversations_get at 1.
    rewrite Hfresh. unfold without_session.
    unfold mbind, M_bind. rewrite Hrun, Hc. compare_literals. reflexivity. }
  eexists _, _. split; [exact Hrun1|].
  cbn [whatsapp_conversations]. split; [apply lookup_insert_eq|].
  split.
  { eapply (webhook_status_id files2 entropy2 {| From := sender; Body := body2 |}).
    - apply lookup_insert_eq.
    - apply lookup_insert_eq. }
  cbn [From whatsapp_conversations predict_calls]. fold user_phone.
  split; [apply lookup_delete_eq|]. split; [|done].
  rewrite delete_insert_eq. by apply delete_id.
Qed.

(** X4.  At stage [get_location] the message is not classified: whatever
    it says, its stripped text becomes the location and the session moves
    to [get_password]; nothing is printed and no model is consulted. *)
Theorem location_is_taken_as_sent intent_files entropy message st s :
  let user_phone := Py.last_field ":" (From message) in
  let user_message := Py.strip (Body message) in
  whatsapp_conversations st !! user_phone = Some s →
  has_stage s "get_location" →
  ∃ st',
    webhook intent_files entropy message st = (Ok password_prompt, st')
    ∧ whatsapp_conversations st' !! user_phone
      = Some (<["stage" := VStr "get_password"]>
                (<["location" := VStr user_message]> s))
    ∧ stdout st' = stdout st
    ∧ predict_calls st' = predict_calls st.
Proof.
  intros user_phone user_message Hstored Hl.
  eexists. split; [by apply (webhook_location coherence_predict category_predict)|].
  cbn [whatsapp_conversations stdout predict_calls].
  split; [apply lookup_insert_eq | done].
Qed.

(** X5.  At stage [get_password] the complaint is printed, not kept: the
    details line on the standard output is the session with the password
    in clear and the new identifier added, the reply quotes that
    identifier, and the sender's entry leaves the store. *)
Theorem password_is_printed_not_stored intent_files entropy message st s :
  let user_phone := Py.last_field ":" (From message) in
  let user_message := Py.strip (Body message) in
  whatsapp_conversations st !! user_phone = Some s →
  has_stage s "get_password" →
  ∃ complaint_id details st',
    webhook intent_files entropy message st = (Ok (filed_reply complaint_id), st')
    ∧ is_complaint_id complaint_id
    ∧ stdout st' = stdout st ++ [PrintToBeSaved; PrintDetails details]
    ∧ details !! "password" = Some (VStr user_message)
    ∧ details !! "id" = Some (VStr complaint_id)
    ∧ (∀ field, field ≠ "password" → field ≠ "id" → details !! field = s !! field)
    ∧ whatsapp_conversations st' = delete user_phone (whatsapp_conversations st)
    ∧ predict_calls st' = predict_calls st.
Proof.
  intros user_phone user_message Hstored Hp.
  eexists _, _, _.
  split; [by apply (webhook_password coherence_predict category_predict)|].
  cbn [whatsapp_conversations stdout predict_calls].
  split; [apply generated_id_matches|]. split; [done|].
  split; [by rewrite lookup_insert_ne, lookup_insert_eq|].
  split; [apply lookup_insert_eq|]. split; [|done].
  intros field Hpw Hid. by rewrite !lookup_insert_ne.
Qed.

Lemma shape_stage s :
  session_shape labels s →
  (has_stage s "greeting" → s = {[ "stage" := VStr "greeting" ]})
  ∧ (has_stage s "get_location" → ∃ desc, s = flow_session desc (labels desc)).
Proof.
  unfold has_stage.
  intros [-> | [-> | [(desc & ->) | (desc & place & ->)]]];
    unfold flow_session; simplify_map_eq; split; intros; simplify_eq; eauto.
Qed.

Lemma written_shape stored user_message s' :
  (∀ s, stored = Some s → session_shape labels s) →
  written coherence_predict category_predict stored user_message s' →
  session_shape labels s'.
Proof.
  intros Hstored Hw.
  destruct Hw as [ | | | s -> Hg | s -> Hg | s -> Hl | s -> Hg Hd Hl Hp Hs].
  - right; right; left. by exists user_message.
  - right; by left.
  - by left.
  - apply stage_is_true in Hg.
    destruct (shape_stage s (Hstored s eq_refl)) as [Hgreet _].
    rewrite (Hgreet Hg), insert_singleton_eq. right; by left.
  - by apply Hstored.
  - apply stage_is_true in Hl.
    destruct (shape_stage s (Hstored s eq_refl)) as [_ Hloc].
    destruct (Hloc Hl) as (desc & ->).
    right; right; right. by exists desc, user_message.
  - by apply Hstored.
Qed.

(** X6.  In every state the process reaches, a stored session is one of
    four: the bare [greeting] or [get_status_id] session, the session
    built for a description with the category and the priority the
    analysis gave that description, or that session with a location, at
    stage [get_password].  So the store never holds a password or a
    complaint identifier. *)
Theorem reachable_sessions_shape st user_phone s :
  reachable coherence_predict category_predict st →
  whatsapp_conversations st !! user_phone = Some s →
  session_shape labels s ∧ s !! "password" = None ∧ s !! "id" = None.
Proof.
  intros Hreach Hs.
  assert (Hall : map_Forall (λ _ s, session_shape labels s)
                   (whatsapp_conversations st)).
  { clear Hs. induction Hreach
      as [ | st intent_files entropy message _ IH | st complaint _ IH].
    - apply map_Forall_empty.
    - destruct (webhook_step coherence_predict category_predict
                  intent_files entropy message st)
        as (reply & st' & Hrun & [Hdel | (s' & Hins & Hw)]); rewrite Hrun; cbn.
      + rewrite Hdel. by apply map_Forall_delete.
      + rewrite Hins. apply map_Forall_insert_2; [|done].
        eapply written_shape; [|exact Hw].
        intros s0 Hs0. by eapply (map_Forall_lookup_1 _ _ _ _ IH).
    - by rewrite analyze_keeps_conversations. }
  pose proof (map_Forall_lookup_1 _ _ _ _ Hall Hs) as Hshape.
  split; [exact Hshape|].
  destruct Hshape as [-> | [-> | [(desc & ->) | (desc & place & ->)]]];
    unfold flow_session; by simplify_map_eq.
Qed.

Lemma score_files_blank intent_files :
  score_files (message_words EmptyString) intent_files = [].
Proof.
  apply score_files_none. intros f _. apply leibniz_equiv, equiv_empty.
  intros w [Hw _]%elem_of_intersection. by apply elem_of_empty in Hw.
Qed.

(** X8.  A message that is empty or all white space has no word: from a
    sender without a session it is classified as [unknown] whatever the
    keyword files hold, and answered with the welcome prompt; nothing is
    printed and no model is consulted. *)
Theorem blank_message_gets_the_welcome intent_files entropy message st :
  let user_phone := Py.last_field ":" (From message) in
  all_chars Py.isspace (Body message) = true →
  whatsapp_conversations st !! user_phone = None →
  webhook intent_files entropy message st
  = (Ok welcome_prompt,
     {| whatsapp_conversations :=
          <[user_phone := {[ "stage" := VStr "greeting" ]}]>
            (whatsapp_conversations st);
        stdout := stdout st;
        predict_calls := predict_calls st |}).
Proof.
  intros user_phone Hblank Hfresh.
  unfold whatsapp_bot. fold user_phone. rewrite (strip_spaces _ Hblank).
  unfold mbind at 1. unfold M_bind at 1. unfold conversations_get at 1.
  rewrite Hfresh. unfold without_session, detect_intent.
  rewrite score_files_blank.
  unfold mbind, M_bind, mret, M_ret. compare_literals. reflexivity.
Qed.

Lemma keyword_has_no_space keyword :
  keyword ∈ high_priority_keywords → has_char " " keyword = false.
Proof.
  unfold high_priority_keywords. intros Hin.
  repeat (apply elem_of_cons in Hin as [-> | Hin]; [reflexivity|]).
  by apply elem_of_nil in Hin.
Qed.

(** X12.  The title and the description are joined by a space and no
    severity keyword holds one, so no keyword is found across the two: for
    a valid text the priority is [High] exactly when a keyword occurs in
    the lower-cased title or in the lower-cased description. *)
Theorem severity_keyword_in_title_or_description complaint st :
  coherence_predict (complaint_text (title complaint) (description complaint))
    = true →
  ∃ result st',
    analyze complaint st = (Ok result, st')
    ∧ (result !! "priority" = Some (VStr "High")
       ↔ ∃ keyword,
           keyword ∈ ["urgent"; "dangerous"; "hazard"; "fire"; "leak";
                      "exposed"; "accident"; "unsafe"; "sewage"; "overflow"]
           ∧ (occurs_in keyword (Py.lower (title complaint))
              ∨ occurs_in keyword (Py.lower (description complaint)))).
Proof.
  intros Hv. eexists _, _. split; [by apply analyze_valid_run|].
  rewrite lookup_insert_eq.
  assert (Hjoin : ∀ keyword, keyword ∈ high_priority_keywords →
    occurs_in keyword
      (Py.lower (complaint_text (title complaint) (description complaint)))
    ↔ occurs_in keyword (Py.lower (title complaint))
      ∨ occurs_in keyword (Py.lower (description complaint))).
  { intros keyword Hin. rewrite <- !contains_spec.
    change (complaint_text (title complaint) (description complaint))
      with (title complaint +:+ String " " (description complaint)).
    rewrite lower_app.
    change (Py.lower (String " " (description complaint)))
      with (String " " (Py.lower (description complaint))).
    rewrite contains_join by (by apply keyword_has_no_space).
    apply orb_true_iff. }
  split.
  - intros [= Hhigh]. apply priority_of_high in Hhigh as (keyword & Hin & Hocc).
    exists keyword. split; [exact Hin|]. by apply Hjoin.
  - intros (keyword & Hin & Hocc). f_equal. f_equal.
    apply priority_of_high. exists keyword. split; [exact Hin|]. by apply Hjoin.
Qed.

(** X14.  The session key is what follows the last colon of [From]: the
    same number reached under two prefixes, or with no prefix at all, is
    one conversation. *)
Theorem sender_key_is_after_the_last_colon
    intent_files entropy prefix phone body st :
  has_char ":" phone = false →
  Py.last_field ":" (prefix +:+ ":" +:+ phone) = phone
  ∧ webhook intent_files entropy
      {| From := prefix +:+ ":" +:+ phone; Body := body |} st
    = webhook intent_files entropy {| From := phone; Body := body |} st.
Proof.
  intros Hphone.
  assert (Hkey : Py.last_field ":" (prefix +:+ ":" +:+ phone) = phone).
  { change (prefix +:+ ":" +:+ phone) with (prefix +:+ String ":" phone).
    by rewrite last_field_app, last_field_whole. }
  split; [exact Hkey|].
  unfold whatsapp_bot. cbn [From Body].
  by rewrite Hkey, last_field_whole.
Qed.

(** X15.  The analysis endpoint always returns a result, marked valid
    exactly when the validity model accepts the text; it touches neither
    the conversations nor the standard output, and records one call of the
    validity model, followed by one of the category model when the text
    is valid. *)
Theorem analyze_returns_and_keeps_the_store complaint st :
  let text := complaint_text (title complaint) (description complaint) in
  ∃ result st',
    analyze complaint st = (Ok result, st')
    ∧ result !! "isComplaintValid" = Some (VBool (coherence_predict text))
    ∧ whatsapp_conversations st' = whatsapp_conversations st
    ∧ stdout st' = stdout st
    ∧ predict_calls st'
      = predict_calls st
        ++ (Coherence, text)
           :: (if coherence_predict text then [(Category, text)] else []).
Proof.
  intros text. destruct (coherence_predict text) eqn:Hv.
  - eexists _, _. split; [by apply analyze_valid_run|]. by simplify_map_eq.
  - eexists _, _. split; [by apply analyze_invalid_run|]. by simplify_map_eq.
Qed.

(** X16.  A stored session whose stage is none of the five the webhook
    tests is left as it is, and the reply is the empty string. *)
Theorem unknown_stage_gets_an_empty_reply intent_files entropy message st s :
  let user_phone := Py.last_field ":" (From message) in
  whatsapp_conversations st !! user_phone = Some s →
  s ≠ ∅ →
  (∀ stage, stage ∈ ["greeting"; "get_description"; "get_location";
                     "get_password"; "get_status_id"] →
            ¬ has_stage s stage) →
  ∃ st',
    webhook intent_files entropy message st = (Ok EmptyString, st')
    ∧ whatsapp_conversations st' = whatsapp_conversations st
    ∧ stdout st' = stdout st
    ∧ predict_calls st' = predict_calls st.
Proof.
  intros user_phone Hstored Hne Hnone.
  assert (Hno : ∀ stage, stage ∈ ["greeting"; "get_description"; "get_location";
                                  "get_password"; "get_status_id"] →
                         stage_is s stage = false).
  { intros stage Hin. apply bool_decide_eq_false. by apply Hnone. }
  unfold whatsapp_bot. fold user_phone.
  unfold mbind at 1. unfold M_bind at 1. unfold conversations_get at 1.
  rewrite Hstored. unfold dict_truthy. rewrite bool_decide_eq_false_2 by done.
  unfold with_session.
  rewrite !Hno by (repeat first [apply list_elem_of_here | apply list_elem_of_further]).
  eexists. split; [reflexivity|]. cbn. by rewrite insert_id.
Qed.

End Further.

(** ** The evaluation script *)

Lemma collect_rows predict seen rows found :
  Evaluation.collect (seen ++ rows.*1) (length seen)
    (zip rows.*2 (predict <$> rows.*1)) found
  = Some (found ++ mismatches_of predict rows).
Proof.
  revert seen found. induction rows as [|[t c] rows IH]; intros seen found.
  - cbn. by rewrite app_nil_r.
  - cbn [fmap list_fmap fst snd zip zip_with Evaluation.collect].
    change (zip_with pair rows.*2 (predict <$> rows.*1))
      with (zip rows.*2 (predict <$> rows.*1)).
    replace (seen ++ t :: rows.*1) with ((seen ++ [t]) ++ rows.*1)
      by (by rewrite <- app_assoc).
    replace (S (length seen)) with (length (seen ++ [t]))
      by (rewrite length_app; cbn; lia).
    unfold mismatches_of. cbn [omap list_omap fst snd].
    destruct (decide (c ≠ predict t)).
    + rewrite lookup_app_l by (rewrite length_app; cbn; lia).
      rewrite lookup_app_r by done. rewrite Nat.sub_diag. cbn [lookup list_lookup].
      rewrite IH. by rewrite <- app_assoc.
    + by rewrite IH.
Qed.

Lemma mismatches_of_nil predict rows :
  mismatches_of predict rows = [] ↔ ∀ row, row ∈ rows → predict row.1 = row.2.
Proof.
  unfold mismatches_of. induction rows as [|row rows IH]; cbn [omap list_omap].
  - split; [by intros _ ? ?%elem_of_nil | done].
  - destruct (decide (row.2 ≠ predict row.1)) as [Hne | Heq].
    + split; [done|]. intros Hall. destruct Hne. symmetry.
      apply Hall, list_elem_of_here.
    + rewrite IH. apply dec_stable in Heq. split.
      * intros Hall r [-> | Hr]%elem_of_cons; [done | by apply Hall].
      * intros Hall r Hr. by apply Hall, list_elem_of_further.
Qed.

Lemma mismatches_of_length predict rows :
  (length (mismatches_of predict rows) ≤ length rows)%nat.
Proof.
  unfold mismatches_of. induction rows as [|row rows IH]; cbn [omap list_omap];
    [done|].
  destruct (decide (row.2 ≠ predict row.1)); cbn [length]; lia.
Qed.

Lemma report_found mismatches count examples :
  Evaluation.report_of mismatches = Evaluation.Found count examples →
  count = length mismatches
  ∧ examples = imap (λ i m, (S i, m)) (take 15 mismatches).
Proof. destruct mismatches; [done|]. by intros [= <- <-]. Qed.

(** X3.  The evaluation script, on columns of equal length and the
    predictions of the model for the texts: the loop never indexes out of
    range; it reports no mismatch exactly when the model agrees with every
    true category; each mismatch it keeps is a text of the data with its
    true category and the different category the model predicts; and of
    those it shows at most the first fifteen, numbered from one. *)
Theorem evaluation_lists_the_disagreements predict X_real y_true :
  length X_real = length y_true →
  ∃ mismatches,
    Evaluation.find_mismatches X_real y_true (predict <$> X_real)
      = Some mismatches
    ∧ (Evaluation.report_of mismatches = Evaluation.NoMismatch
       ↔ ∀ i t c, X_real !! i = Some t → y_true !! i = Some c → predict t = c)
    ∧ (∀ m, m ∈ mismatches →
         Evaluation.predicted_category m = predict (Evaluation.text m)
         ∧ Evaluation.true_category m ≠ Evaluation.predicted_category m
         ∧ ∃ i, X_real !! i = Some (Evaluation.text m)
                ∧ y_true !! i = Some (Evaluation.true_category m))
    ∧ (length mismatches ≤ length X_real)%nat
    ∧ (∀ count examples,
         Evaluation.report_of mismatches = Evaluation.Found count examples →
         count = length mismatches
         ∧ (length examples ≤ 15)%nat
         ∧ ∀ k n m, examples !! k = Some (n, m) →
                    n = S k ∧ mismatches !! k = Some m).
Proof.
  intros Hlen. set (rows := zip X_real y_true).
  assert (H1 : rows.*1 = X_real) by (apply fst_zip; lia).
  assert (H2 : rows.*2 = y_true) by (apply snd_zip; lia).
  assert (Hrow : ∀ t c, (t, c) ∈ rows
            ↔ ∃ i, X_real !! i = Some t ∧ y_true !! i = Some c).
  { intros t c. unfold rows. rewrite list_elem_of_lookup.
    split; intros [i Hi]; exists i.
    - by apply lookup_zip_with_Some in Hi as (? & ? & [= <- <-] & ? & ?).
    - destruct Hi as [Ht Hc]. apply lookup_zip_with_Some. eauto. }
  exists (mismatches_of predict rows). split; [|split; [|split; [|split]]].
  - unfold Evaluation.find_mismatches.
    pose proof (collect_rows predict [] rows []) as Hrun.
    cbn [app length] in Hrun. by rewrite H1, H2 in Hrun.
  - transitivity (mismatches_of predict rows = []).
    { unfold Evaluation.report_of. by destruct (mismatches_of predict rows). }
    rewrite mismatches_of_nil. split.
    + intros Hall i t c Ht Hc. apply (Hall (t, c)). apply Hrow. eauto.
    + intros Hall [t c] (i & Ht & Hc)%Hrow. by apply (Hall i).
  - intros m Hm. unfold mismatches_of in Hm.
    apply list_elem_of_omap in Hm as ([t c] & Hin & Hm). cbn [fst snd] in Hm.
    destruct (decide (c ≠ predict t)); simplify_eq. cbn.
    split; [done|]. split; [done|]. by apply Hrow.
  - rewrite <- H1, length_fmap. apply mismatches_of_length.
  - intros count examples Hrep.
    apply report_found in Hrep as [-> ->]. split; [done|].
    split; [rewrite length_imap, length_take; lia|].
    intros k n m Hk. apply list_lookup_imap_Some in Hk as (m' & Hk & [= -> ->]).
    apply lookup_take_Some in Hk as [Hk _]. done.
Qed.

(** ** Instances *)

(** C4 as stated fails when two files give the same intent name: they
    share one entry of [scores], which keeps the score of the later file.
    Here [a.txt] meets the message in three words and [a.txt.txt] in one;
    the entry of [a] ends at one and [b], with two, is returned, although
    no file named [b] has the largest overlap. *)
Lemma same_name_files_defeat_best_overlap :
  (detect_intent clashing_files "x y z" initial_state).1 = Ok "b"
  ∧ (∃ f, f ∈ clashing_files ∧ message_words "x y z" ∩ keywords f ≠ ∅)
  ∧ ¬ ∃ best,
        best ∈ clashing_files
        ∧ classified clashing_files "x y z" initial_state (intent_name best)
        ∧ ∀ f, f ∈ clashing_files →
            (size (message_words "x y z" ∩ keywords f)
             ≤ size (message_words "x y z" ∩ keywords best))%nat.
Proof.
  split; [by vm_compute|]. split.
  - eexists. split; [apply list_elem_of_here|].
    apply (bool_decide_unpack _). by vm_compute.
  - intros (best & Hin & Hc & Hmax). unfold clashing_files in Hin.
    apply elem_of_cons in Hin as [-> | Hin]; [vm_compute in Hc; discriminate Hc|].
    apply elem_of_cons in Hin as [-> | Hin]; [vm_compute in Hc; discriminate Hc|].
    apply elem_of_cons in Hin as [-> | Hin]; [|by apply elem_of_nil in Hin].
    specialize (Hmax _ (list_elem_of_here _ _)).
    vm_compute in Hmax. lia.
Qed.


Lemma complaint_filed_in_three_messages_witness :
  ∃ reply1 st1 s1 reply2 st2 s2 complaint_id st3,
    whatsapp_bot sample_coherence sample_category files_after_edit 7
      (from_sample " report a pothole ") initial_state = (Ok reply1, st1)
    ∧ whatsapp_conversations st1 !! "+15550100" = Some s1
    ∧ has_stage s1 "get_location"
    ∧ whatsapp_bot sample_coherence sample_category files_at_startup 8
        (from_sample "Main street") st1 = (Ok reply2, st2)
    ∧ whatsapp_conversations st2 !! "+15550100" = Some s2
    ∧ has_stage s2 "get_password"
    ∧ whatsapp_bot sample_coherence sample_category files_at_startup 123456
        (from_sample "secret") st2 = (Ok (filed_reply complaint_id), st3)
    ∧ is_complaint_id complaint_id
    ∧ occurs_in complaint_id (filed_reply complaint_id)
    ∧ whatsapp_conversations st3 !! "+15550100" = None
    ∧ whatsapp_conversations st3 = whatsapp_conversations initial_state.
Proof.
  apply (complaint_filed_in_three_messages sample_coherence sample_category
           "whatsapp:+15550100" " report a pothole " "Main street" "secret"
           files_after_edit files_at_startup files_at_startup 7 8 123456
           initial_state).
  - reflexivity.
  - vm_compute. reflexivity.
Defined.

Lemma invalid_text_short_circuits_witness :
  ∃ result st',
    analyze_complaint_web sample_coherence sample_category
      (sample_complaint "Hello" "nothing to report") initial_state = (Ok result, st')
    ∧ result !! "isComplaintValid" = Some (VBool false)
    ∧ result !! "suggestedCategory" = None
    ∧ result !! "category" = None
    ∧ result !! "priority" = None
    ∧ result !! "estimatedResolutionDays" = None
    ∧ dom result = {[ "isComplaintValid"; "reasoning" ]}
    ∧ predict_calls st' = [(Coherence, "Hello nothing to report")].
Proof.
  apply (proj1 (invalid_text_short_circuits sample_coherence sample_category
                  (sample_complaint "Hello" "nothing to report") initial_state)).
  vm_compute. reflexivity.
Defined.


(** The example of the design document, with a validity model that
    accepts it. *)
Lemma resolution_days_is_five_witness :
  ∃ result st',
    analyze_complaint_web (λ _, true) sample_category
      (sample_complaint "There is a gas leak" "near my house, very unsafe")
      initial_state = (Ok result, st')
    ∧ result !! "priority" = Some (VStr "High")
    ∧ result !! "estimatedResolutionDays" = Some (VInt 5).
Proof.
  destruct (resolution_days_is_five (λ _, true) sample_category
              (sample_complaint "There is a gas leak" "near my house, very unsafe")
              initial_state eq_refl) as (result & st' & Hrun & Hdays & Hhigh).
  exists result, st'. split; [exact Hrun|]. split; [|exact Hdays].
  apply Hhigh. reflexivity.
Defined.

Lemma detect_unknown_or_best_overlap_witness :
  classified files_after_edit "Good morning" initial_state "unknown"
  ∧ ∃ best,
      best ∈ files_after_edit
      ∧ classified files_after_edit "Please CHECK the pothole report"
          initial_state (intent_name best)
      ∧ message_words "Please CHECK the pothole report" ∩ keywords best ≠ ∅
      ∧ ∀ f, f ∈ files_after_edit →
          (size (message_words "Please CHECK the pothole report" ∩ keywords f)
           ≤ size (message_words "Please CHECK the pothole report"
                   ∩ keywords best))%nat.
Proof.
  split.
  - apply (proj1 (detect_unknown_or_best_overlap files_after_edit
                    "Good morning" initial_state)).
    intros f Hf. unfold files_after_edit in Hf.
    repeat (apply elem_of_cons in Hf as [-> | Hf]); [by vm_compute ..|].
    by apply elem_of_nil in Hf.
  - apply (proj2 (detect_unknown_or_best_overlap files_after_edit
                    "Please CHECK the pothole report" initial_state)).
    + apply (bool_decide_unpack _). by vm_compute.
    + eexists. split; [apply list_elem_of_here|].
      apply (bool_decide_unpack _). by vm_compute.
Defined.

Lemma webhook_preserves_session_fields_witness :
  store_fields_ok (whatsapp_conversations state_after_description)
  ∧ store_fields_ok
      (whatsapp_conversations
         (whatsapp_bot sample_coherence sample_category files_at_startup 8
            (from_sample "Main street") state_after_description).2).
Proof.
  assert (Hfirst : store_fields_ok (whatsapp_conversations state_after_description)).
  { apply (webhook_preserves_session_fields sample_coherence sample_category
             files_after_edit 7 (from_sample " report a pothole ") initial_state).
    apply map_Forall_empty. }
  split; [exact Hfirst|].
  apply (webhook_preserves_session_fields sample_coherence sample_category
           files_at_startup 8 (from_sample "Main street") state_after_description).
  exact Hfirst.
Defined.

Lemma unknown_intent_is_answered_witness :
  (∃ st',
     whatsapp_bot sample_coherence sample_category files_at_startup 0
       (from_sample "Good morning") initial_state = (Ok welcome_prompt, st')
     ∧ whatsapp_conversations st'
       = <["+15550100" := {[ "stage" := VStr "greeting" ]}]>
           (whatsapp_conversations initial_state))
  ∧ (∃ st',
       whatsapp_bot sample_coherence sample_category files_after_edit 1
         (from_sample "How are you?") state_after_greeting
         = (Ok clarifying_prompt, st')
       ∧ whatsapp_conversations st' = whatsapp_conversations state_after_greeting
       ∧ whatsapp_conversations st' !! "+15550100"
         = Some {[ "stage" := VStr "greeting" ]}).
Proof.
  split.
  - apply (proj1 (unknown_intent_is_answered sample_coherence sample_category
                    files_at_startup 0 (from_sample "Good morning") initial_state
                    ltac:(vm_compute; reflexivity))).
    reflexivity.
  - apply (proj2 (unknown_intent_is_answered sample_coherence sample_category
                    files_after_edit 1 (from_sample "How are you?")
                    state_after_greeting ltac:(vm_compute; reflexivity))
             {[ "stage" := VStr "greeting" ]}).
    + vm_compute. reflexivity.
    + vm_compute. reflexivity.
Defined.

Lemma get_description_never_stored_witness :
  ∃ s,
    whatsapp_conversations state_after_description !! "+15550100" = Some s
    ∧ known_stage s ∧ stage_is s "get_description" = false.
Proof.
  eexists. split; [vm_compute; reflexivity|].
  apply (proj2 (get_description_never_stored sample_coherence sample_category)
           state_after_description "+15550100").
  - apply reachable_webhook, reachable_initial.
  - vm_compute. reflexivity.
Defined.

Lemma invalid_chat_complaint_still_advances_witness :
  ∃ st',
    whatsapp_bot sample_coherence sample_category files_at_startup 0
      (from_sample "I want to report my neighbour") initial_state
      = (Ok "Got it. I've categorized this as a 'unknown' issue with 'medium' priority. What is the location of this issue?",
         st')
    ∧ whatsapp_conversations st'
      = <["+15550100" :=
            <["priority" := VStr "medium"]>
              (<["category" := VStr "unknown"]>
                 {[ "stage" := VStr "get_location";
                    "description" := VStr "I want to report my neighbour" ]})]>
          (whatsapp_conversations initial_state)
    ∧ predict_calls st'
      = predict_calls initial_state
        ++ [(Coherence, "WhatsApp Complaint I want to report my neighbour")].
Proof.
  apply (invalid_chat_complaint_still_advances sample_coherence sample_category
           files_at_startup 0 (from_sample "I want to report my neighbour")
           initial_state).
  - vm_compute. reflexivity.
  - vm_compute. reflexivity.
Defined.

(** ** Instances of the further properties *)

Lemma status_check_in_two_messages_witness :
  ∃ st1 st2,
    whatsapp_bot sample_coherence sample_category files_at_startup 0
      (from_sample "Check status please") initial_state = (Ok status_prompt, st1)
    ∧ whatsapp_conversations st1 !! "+15550100"
      = Some {[ "stage" := VStr "get_status_id" ]}
    ∧ whatsapp_bot sample_coherence sample_category files_after_edit 1
        (from_sample " WACMP-1234 ") st1 = (Ok (status_reply "WACMP-1234"), st2)
    ∧ whatsapp_conversations st2 !! "+15550100" = None
    ∧ whatsapp_conversations st2 = whatsapp_conversations initial_state
    ∧ predict_calls st2 = predict_calls initial_state.
Proof.
  apply (status_check_in_two_messages sample_coherence sample_category
           "whatsapp:+15550100" "Check status please" " WACMP-1234 "
           files_at_startup files_after_edit 0 1 initial_state).
  - reflexivity.
  - vm_compute. reflexivity.
Defined.

Lemma location_is_taken_as_sent_witness :
  ∃ st',
    whatsapp_bot sample_coherence sample_category files_at_startup 8
      (from_sample "check status") state_after_description
      = (Ok password_prompt, st')
    ∧ whatsapp_conversations st' !! "+15550100"
      = Some (<["stage" := VStr "get_password"]>
                (<["location" := VStr "check status"]> sample_session))
    ∧ stdout st' = stdout state_after_description
    ∧ predict_calls st' = predict_calls state_after_description.
Proof.
  apply (location_is_taken_as_sent sample_coherence sample_category
           files_at_startup 8 (from_sample "check status")
           state_after_description sample_session).
  - vm_compute. reflexivity.
  - vm_compute. reflexivity.
Defined.

Lemma password_is_printed_not_stored_witness :
  ∃ complaint_id details st',
    whatsapp_bot sample_coherence sample_category files_at_startup 123456
      (from_sample "secret") state_after_location
      = (Ok (filed_reply complaint_id), st')
    ∧ is_complaint_id complaint_id
    ∧ stdout st'
      = stdout state_after_location ++ [PrintToBeSaved; PrintDetails details]
    ∧ details !! "password" = Some (VStr "secret")
    ∧ details !! "id" = Some (VStr complaint_id)
    ∧ (∀ field, field ≠ "password" → field ≠ "id" →
         details !! field
         = (<["stage" := VStr "get_password"]>
              (<["location" := VStr "Main street"]> sample_session)) !! field)
    ∧ whatsapp_conversations st'
      = delete "+15550100" (whatsapp_conversations state_after_location)
    ∧ predict_calls st' = predict_calls state_after_location.
Proof.
  apply (password_is_printed_not_stored sample_coherence sample_category
           files_at_startup 123456 (from_sample "secret") state_after_location
           (<["stage" := VStr "get_password"]>
              (<["location" := VStr "Main street"]> sample_session))).
  - vm_compute. reflexivity.
  - vm_compute. reflexivity.
Defined.

Lemma reachable_sessions_shape_witness :
  session_shape (flow_labels sample_coherence sample_category) sample_session
  ∧ sample_session !! "password" = None
  ∧ sample_session !! "id" = None.
Proof.
  apply (reachable_sessions_shape sample_coherence sample_category
           state_after_description "+15550100" sample_session).
  - apply reachable_webhook, reachable_initial.
  - vm_compute. reflexivity.
Defined.

Lemma blank_message_gets_the_welcome_witness :
  whatsapp_bot sample_coherence sample_category files_after_edit 0
    (from_sample "   ") initial_state
  = (Ok welcome_prompt,
     {| whatsapp_conversations :=
          <["+15550100" := {[ "stage" := VStr "greeting" ]}]>
            (whatsapp_conversations initial_state);
        stdout := stdout initial_state;
        predict_calls := predict_calls initial_state |}).
Proof.
  apply (blank_message_gets_the_welcome sample_coherence sample_category
           files_after_edit 0 (from_sample "   ") initial_state).
  - reflexivity.
  - reflexivity.
Defined.

Lemma ties_go_to_the_first_file_witness :
  ∃ before best after,
    files_at_startup = before ++ best :: after
    ∧ (detect_intent files_at_startup "Report STATUS" initial_state).1
      = Ok (intent_name best)
    ∧ (∀ f, f ∈ before →
         (score (message_words "Report STATUS") f
          < score (message_words "Report STATUS") best)%nat)
    ∧ (∀ f, f ∈ after →
         (score (message_words "Report STATUS") f
          ≤ score (message_words "Report STATUS") best)%nat).
Proof.
  apply (ties_go_to_the_first_file files_at_startup "Report STATUS" initial_state).
  - apply (bool_decide_unpack _). by vm_compute.
  - eexists. split; [apply list_elem_of_here|].
    apply (bool_decide_unpack _). by vm_compute.
Defined.

Lemma uppercase_or_spaced_keywords_never_count_witness :
  score (message_words "I want to file a Complaint") shouting_file = 0%nat.
Proof.
  apply (uppercase_or_spaced_keywords_never_count shouting_file
           "I want to file a Complaint").
  intros kw Hkw. unfold keywords in Hkw. apply elem_of_list_to_set in Hkw.
  assert (Hlist : filter (λ w, w ≠ EmptyString) (Py.strip <$> lines shouting_file)
                  = ["Complaint"; "file complaint"]) by (vm_compute; reflexivity).
  rewrite Hlist in Hkw.
  repeat (apply elem_of_cons in Hkw as [-> | Hkw]; [reflexivity|]).
  by apply elem_of_nil in Hkw.
Defined.

Lemma severity_keyword_in_title_or_description_witness :
  ∃ result st',
    analyze_complaint_web sample_coherence sample_category
      (sample_complaint "Pothole" "Exposed cable beside it") initial_state
      = (Ok result, st')
    ∧ (result !! "priority" = Some (VStr "High")
       ↔ ∃ keyword,
           keyword ∈ ["urgent"; "dangerous"; "hazard"; "fire"; "leak";
                      "exposed"; "accident"; "unsafe"; "sewage"; "overflow"]
           ∧ (occurs_in keyword (Py.lower "Pothole")
              ∨ occurs_in keyword (Py.lower "Exposed cable beside it"))).
Proof.
  apply (severity_keyword_in_title_or_description sample_coherence sample_category
           (sample_complaint "Pothole" "Exposed cable beside it") initial_state).
  vm_compute. reflexivity.
Defined.

Lemma intent_name_of_keyword_file_witness :
  intent_name {| path := "intents/" +:+ "check_status" +:+ ".txt";
                 lines := ["status"] |} = "check_status".
Proof.
  apply (intent_name_of_keyword_file "check_status" ["status"]).
  - reflexivity.
  - reflexivity.
Defined.

Lemma sender_key_is_after_the_last_colon_witness :
  Py.last_field ":" ("whatsapp" +:+ ":" +:+ "+15550100") = "+15550100"
  ∧ whatsapp_bot sample_coherence sample_category files_at_startup 0
      {| From := "whatsapp" +:+ ":" +:+ "+15550100"; Body := "Main street" |}
      state_after_description
    = whatsapp_bot sample_coherence sample_category files_at_startup 0
        {| From := "+15550100"; Body := "Main street" |} state_after_description.
Proof.
  apply (sender_key_is_after_the_last_colon sample_coherence sample_category
           files_at_startup 0 "whatsapp" "+15550100" "Main street"
           state_after_description).
  reflexivity.
Defined.

Lemma unknown_stage_gets_an_empty_reply_witness :
  ∃ st',
    whatsapp_bot sample_coherence sample_category files_at_startup 0
      (from_sample "report a pothole") state_with_lost_session
      = (Ok EmptyString, st')
    ∧ whatsapp_conversations st' = whatsapp_conversations state_with_lost_session
    ∧ stdout st' = stdout state_with_lost_session
    ∧ predict_calls st' = predict_calls state_with_lost_session.
Proof.
  apply (unknown_stage_gets_an_empty_reply sample_coherence sample_category
           files_at_startup 0 (from_sample "report a pothole")
           state_with_lost_session {[ "stage" := VStr "lost" ]}).
  - vm_compute. reflexivity.
  - apply insert_non_empty.
  - intros stage Hin Hstage. unfold has_stage in Hstage.
    rewrite lookup_singleton_eq in Hstage. injection Hstage as <-.
    repeat (apply elem_of_cons in Hin as [Hin | Hin]; [discriminate Hin|]).
    by apply elem_of_nil in Hin.
Defined.

Lemma detect_intent_prints_what_it_found_witness :
  detect_intent files_at_startup "Good morning" initial_state
    = (Ok "unknown", initial_state)
  ∧ ∃ intent n,
      (0 < n)%nat
      ∧ detect_intent files_at_startup "check the status" initial_state
        = (Ok intent,
           {| whatsapp_conversations := whatsapp_conversations initial_state;
              stdout := stdout initial_state ++ [PrintDetected intent n];
              predict_calls := predict_calls initial_state |}).
Proof.
  split.
  - apply (proj1 (detect_intent_prints_what_it_found files_at_startup
                    "Good morning" initial_state)).
    intros f Hf. unfold files_at_startup in Hf.
    repeat (apply elem_of_cons in Hf as [-> | Hf]); [by vm_compute ..|].
    by apply elem_of_nil in Hf.
  - apply (proj2 (detect_intent_prints_what_it_found files_at_startup
                    "check the status" initial_state)).
    eexists. split; [apply list_elem_of_further, list_elem_of_here|].
    apply (bool_decide_unpack _). by vm_compute.
Defined.

Lemma evaluation_lists_the_disagreements_witness :
  ∃ mismatches,
    Evaluation.find_mismatches ["Deep pothole"; "No water since Monday"]
      ["roads"; "water"]
      (sample_category <$> ["Deep pothole"; "No water since Monday"])
      = Some mismatches
    ∧ (Evaluation.report_of mismatches = Evaluation.NoMismatch
       ↔ ∀ i t c,
           ["Deep pothole"; "No water since Monday"] !! i = Some t →
           ["roads"; "water"] !! i = Some c → sample_category t = c)
    ∧ (∀ m, m ∈ mismatches →
         Evaluation.predicted_category m = sample_category (Evaluation.text m)
         ∧ Evaluation.true_category m ≠ Evaluation.predicted_category m
         ∧ ∃ i, ["Deep pothole"; "No water since Monday"] !! i
                  = Some (Evaluation.text m)
                ∧ ["roads"; "water"] !! i = Some (Evaluation.true_category m))
    ∧ (length mismatches
       ≤ length ["Deep pothole"; "No water since Monday"])%nat
    ∧ (∀ count examples,
         Evaluation.report_of mismatches = Evaluation.Found count examples →
         count = length mismatches
         ∧ (length examples ≤ 15)%nat
         ∧ ∀ k n m, examples !! k = Some (n, m) →
                    n = S k ∧ mismatches !! k = Some m).
Proof.
  apply (evaluation_lists_the_disagreements sample_category
           ["Deep pothole"; "No water since Monday"] ["roads"; "water"]).
  reflexivity.
Defined.
